(** * SAGCO kernel: the VGA text-mode terminal driver of [src/kernel/kernel.c]

    The kernel is a freestanding 32-bit x86 program.  Its only stateful
    component is the terminal driver: four file-scope variables
    ([terminal_row], [terminal_column], [terminal_color], [terminal_buffer])
    and the memory-mapped grid of 16-bit cells that [terminal_buffer] points
    to.  The embedding below passes that state explicitly.

    - [size_t] is 32 bits wide on the target; a [size_t] value is a [Z] and
      every arithmetic operation on it is reduced modulo [2^32].
    - [uint8_t] and [uint16_t] values are [Z]; conversions to them reduce
      modulo [2^8] and [2^16].
    - a [char] is a [Byte.byte] (its bit pattern); the conversion from [char]
      to [unsigned char] keeps the bit pattern.
    - memory is a finite map from byte addresses to the 16-bit words stored
      there.  The program touches memory only through 16-bit stores at
      [terminal_buffer + 2 * index].
    - a [const char*] argument is the list of bytes of the object it points
      to; reading past its end has no defined result, which is [None].  An
      object is shorter than [2^32] bytes, so a counter that runs over it
      ([i] in [terminal_write], [len] in [strlen]) never wraps and is a
      [nat]. *)

From Stdlib Require Import ZArith Lia.
From Stdlib Require Import Strings.Byte.
From Stdlib Require Strings.String.
Import Strings.String.StringSyntax.
Delimit Scope string_scope with string.
From stdpp Require Import gmap list.

Local Open Scope Z_scope.

(** ** Machine integers *)

Definition SIZE_BITS : Z := 32.

(** Reduction of a mathematical integer to [size_t]. *)
Definition size_wrap (x : Z) : Z := x mod 2 ^ SIZE_BITS.

(** [++x] on a [size_t]. *)
Definition size_incr (x : Z) : Z := size_wrap (x + 1).

(** Conversion to [uint8_t] and to [uint16_t]. *)
Definition to_uint8 (x : Z) : Z := x mod 2 ^ 8.
Definition to_uint16 (x : Z) : Z := x mod 2 ^ 16.

(** The value of a [char] seen as [unsigned char]. *)
Definition byte_val (c : byte) : Z := Z.of_N (Byte.to_N c).

(** Equality of bytes is decidable, by [Byte.eqb]. *)
#[global] Instance byte_eq_decision : EqDecision byte.
Proof.
  intros x y. destruct (Byte.eqb x y) eqn:E.
  - left. by apply Byte.byte_dec_bl.
  - right. by apply Byte.eqb_false.
Defined.

(** ** Constants *)

Definition VGA_MEMORY : Z := 0xB8000.
Definition VGA_WIDTH : Z := 80.
Definition VGA_HEIGHT : Z := 25.

Inductive vga_color : Set :=
  | VGA_BLACK | VGA_BLUE | VGA_GREEN | VGA_CYAN
  | VGA_RED | VGA_MAGENTA | VGA_BROWN | VGA_LIGHT_GREY
  | VGA_DARK_GREY | VGA_LIGHT_BLUE | VGA_LIGHT_GREEN | VGA_LIGHT_CYAN
  | VGA_LIGHT_RED | VGA_LIGHT_MAGENTA | VGA_YELLOW | VGA_WHITE.

(** The enumerators' values. *)
Definition vga_color_val (c : vga_color) : Z :=
  match c with
  | VGA_BLACK => 0 | VGA_BLUE => 1 | VGA_GREEN => 2 | VGA_CYAN => 3
  | VGA_RED => 4 | VGA_MAGENTA => 5 | VGA_BROWN => 6 | VGA_LIGHT_GREY => 7
  | VGA_DARK_GREY => 8 | VGA_LIGHT_BLUE => 9 | VGA_LIGHT_GREEN => 10
  | VGA_LIGHT_CYAN => 11 | VGA_LIGHT_RED => 12 | VGA_LIGHT_MAGENTA => 13
  | VGA_YELLOW => 14 | VGA_WHITE => 15
  end.

(** The characters the driver itself names. *)
Definition newline : byte := "010"%byte.
Definition space : byte := " "%byte.
Definition nul : byte := "000"%byte.

(** ** Cell encoding *)

(** [return fg | bg << 4;] converted to the [uint8_t] return type. *)
Definition vga_entry_color (fg bg : vga_color) : Z :=
  to_uint8 (Z.lor (vga_color_val fg) (Z.shiftl (vga_color_val bg) 4)).

(** [return (uint16_t) uc | (uint16_t) color << 8;] converted to the
    [uint16_t] return type. *)
Definition vga_entry (uc : byte) (color : Z) : Z :=
  to_uint16 (Z.lor (to_uint16 (byte_val uc)) (Z.shiftl (to_uint16 color) 8)).

(** ** Driver state *)

Record machine : Type := Machine {
  terminal_row : Z;
  terminal_column : Z;
  terminal_color : Z;
  terminal_buffer : Z;
  mem : gmap Z Z
}.

Definition set_row (v : Z) (st : machine) : machine :=
  Machine v (terminal_column st) (terminal_color st) (terminal_buffer st) (mem st).
Definition set_column (v : Z) (st : machine) : machine :=
  Machine (terminal_row st) v (terminal_color st) (terminal_buffer st) (mem st).
Definition set_color (v : Z) (st : machine) : machine :=
  Machine (terminal_row st) (terminal_column st) v (terminal_buffer st) (mem st).
Definition set_buffer (v : Z) (st : machine) : machine :=
  Machine (terminal_row st) (terminal_column st) (terminal_color st) v (mem st).
Definition set_mem (m : gmap Z Z) (st : machine) : machine :=
  Machine (terminal_row st) (terminal_column st) (terminal_color st)
          (terminal_buffer st) m.

(** Address of [base[index]] for a [uint16_t* base], in the flat 32-bit
    address space. *)
Definition elem_addr (base index : Z) : Z := size_wrap (base + 2 * index).

(** [terminal_buffer[index] = v;] *)
Definition buffer_store (index v : Z) (st : machine) : machine :=
  set_mem (<[elem_addr (terminal_buffer st) index := v]> (mem st)) st.

(** [for (size_t i = 0; i < n; i++) body] for a body that does not assign [i]. *)
Definition for_upto {A : Type} (n : Z) (body : Z → A → A) (a : A) : A :=
  foldl (λ acc i, body i acc) a (seqZ 0 n).

(** ** The driver *)

Definition terminal_initialize (st : machine) : machine :=
  let st := set_row 0 st in
  let st := set_column 0 st in
  let st := set_color (vga_entry_color VGA_LIGHT_CYAN VGA_BLACK) st in
  let st := set_buffer VGA_MEMORY st in
  for_upto VGA_HEIGHT (λ y st,
    for_upto VGA_WIDTH (λ x st,
      let index := size_wrap (y * VGA_WIDTH + x) in
      buffer_store index (vga_entry space (terminal_color st)) st) st) st.

Definition terminal_setcolor (color : Z) (st : machine) : machine :=
  set_color color st.

Definition terminal_putentryat (c : byte) (color x y : Z) (st : machine) : machine :=
  let index := size_wrap (y * VGA_WIDTH + x) in
  buffer_store index (vga_entry c color) st.

Definition terminal_putchar (c : byte) (st : machine) : machine :=
  if Byte.eqb c newline then
    let st := set_column 0 st in
    let st := set_row (size_incr (terminal_row st)) st in
    if terminal_row st =? VGA_HEIGHT then set_row 0 st else st
  else
    let st := terminal_putentryat c (terminal_color st)
                (terminal_column st) (terminal_row st) st in
    let st := set_column (size_incr (terminal_column st)) st in
    if terminal_column st =? VGA_WIDTH then
      let st := set_column 0 st in
      let st := set_row (size_incr (terminal_row st)) st in
      if terminal_row st =? VGA_HEIGHT then set_row 0 st else st
    else st.

(** The loop of [terminal_write] from counter value [i], with [n = size - i]
    iterations left.  [data !! i] is the read of [data[i]]. *)
Fixpoint terminal_write_from (data : list byte) (i n : nat) (st : machine)
  : option machine :=
  match n with
  | O => Some st
  | S n' =>
      match data !! i with
      | Some c => terminal_write_from data (S i) n' (terminal_putchar c st)
      | None => None
      end
  end.

Definition terminal_write (data : list byte) (size : nat) (st : machine)
  : option machine :=
  terminal_write_from data 0 size st.

(** The loop of [strlen] with [rest] the bytes from [str + len] on:
    [while (str[len]) len++; return len;]. *)
Fixpoint strlen_from (rest : list byte) (len : nat) : option nat :=
  match rest with
  | [] => None
  | c :: rest' => if Byte.eqb c nul then Some len else strlen_from rest' (S len)
  end.

Definition strlen (str : list byte) : option nat := strlen_from str 0.

Definition terminal_writestring (data : list byte) (st : machine)
  : option machine :=
  match strlen data with
  | Some len => terminal_write data len st
  | None => None
  end.

Definition terminal_writeline (data : list byte) (st : machine)
  : option machine :=
  match terminal_writestring data st with
  | Some st' => Some (terminal_putchar newline st')
  | None => None
  end.

(** ** The banner *)

(** A C string literal: its characters, then the terminating NUL. *)
Definition cstr (s : String.string) : list byte :=
  String.list_byte_of_string s ++ [nul].
Arguments cstr s%_string.

Definition print_header (st : machine) : option machine :=
  let st := terminal_setcolor (vga_entry_color VGA_YELLOW VGA_BLACK) st in
  st ← terminal_writeline
    (cstr "===============================================================================")
    st;
  let st := terminal_setcolor (vga_entry_color VGA_LIGHT_CYAN VGA_BLACK) st in
  st ← terminal_writeline
    (cstr "                           SAGCO LIVE v0.1.0")
    st;
  st ← terminal_writeline
    (cstr "              Sovereign AI-Governed Compute Organism")
    st;
  let st := terminal_setcolor (vga_entry_color VGA_YELLOW VGA_BLACK) st in
  st ← terminal_writeline
    (cstr "===============================================================================")
    st;
  Some (terminal_putchar newline st).

Definition print_info (st : machine) : option machine :=
  let st := terminal_setcolor (vga_entry_color VGA_WHITE VGA_BLACK) st in
  st ← terminal_writeline
    (cstr "  Status: KERNEL BOOTED")
    st;
  st ← terminal_writeline
    (cstr "  Owner:  Strategickhaos DAO LLC")
    st;
  st ← terminal_writeline
    (cstr "  Motto:  Ratio Ex Nihilo")
    st;
  Some (terminal_putchar newline st).

Definition print_status (st : machine) : option machine :=
  let st := terminal_setcolor (vga_entry_color VGA_LIGHT_GREEN VGA_BLACK) st in
  st ← terminal_writeline
    (cstr "  [*] VGA initialized")
    st;
  st ← terminal_writeline
    (cstr "  [*] Interrupts disabled")
    st;
  st ← terminal_writeline
    (cstr "  [*] Awaiting FlameLang integration...")
    st;
  Some (terminal_putchar newline st).

Definition print_footer (st : machine) : option machine :=
  let st := terminal_setcolor (vga_entry_color VGA_YELLOW VGA_BLACK) st in
  st ← terminal_writeline
    (cstr "===============================================================================")
    st;
  let st := terminal_setcolor (vga_entry_color VGA_LIGHT_MAGENTA VGA_BLACK) st in
  st ← terminal_writeline
    (cstr "  Legion of Minds: Claude + GPT + Grok = Convergence")
    st;
  let st := terminal_setcolor (vga_entry_color VGA_YELLOW VGA_BLACK) st in
  terminal_writeline
    (cstr "===============================================================================")
    st.

(** [kernel_main] up to its last statement, the loop [while (1) hlt], which
    never ends and touches neither the driver's variables nor memory: the
    result is the state in which the processor halts for good. *)
Definition kernel_main (st : machine) : option machine :=
  let st := terminal_initialize st in
  st ← print_header st;
  st ← print_info st;
  st ← print_status st;
  print_footer st.

(** ** Observations *)

(** The word ([None]: never stored) at grid position column [x], row [y],
    addressed the way [terminal_putentryat] does. *)
Definition cell_at (st : machine) (x y : Z) : option Z :=
  mem st !! elem_addr (terminal_buffer st) (size_wrap (y * VGA_WIDTH + x)).

(** Low and high byte of a cell. *)
Definition cell_char (w : Z) : Z := Z.land w 0xFF.
Definition cell_attr (w : Z) : Z := Z.shiftr w 8.

(** The cursor-bounds invariant. *)
Definition cursor_ok (st : machine) : Prop :=
  0 ≤ terminal_row st < VGA_HEIGHT ∧ 0 ≤ terminal_column st < VGA_WIDTH.

Definition in_grid (x y : Z) : Prop := 0 ≤ x < VGA_WIDTH ∧ 0 ≤ y < VGA_HEIGHT.

(** The statics as the loader leaves them (zeroed [.bss]), over a memory in
    which nothing has been stored yet. *)
Definition boot_state : machine := Machine 0 0 0 0 ∅.

(** ** Derived characterisations used by the proofs *)

(** The row after the [if (++terminal_row == VGA_HEIGHT) terminal_row = 0;]
    step. *)
Definition next_row (row : Z) : Z :=
  if size_incr row =? VGA_HEIGHT then 0 else size_incr row.

(** [terminal_putchar] applied to each byte of [S] in order. *)
Definition putchars (bs : list byte) (st : machine) : machine :=
  foldl (λ s c, terminal_putchar c s) st bs.

(** The state [terminal_putchar] leaves for a byte other than newline, with
    cursor [(row', col')]: the cell under the old cursor holds the byte. *)
Definition put_at (c : byte) (row' col' : Z) (st : machine) : machine :=
  Machine row' col' (terminal_color st) (terminal_buffer st)
    (<[elem_addr (terminal_buffer st)
         (size_wrap (terminal_row st * VGA_WIDTH + terminal_column st))
       := vga_entry c (terminal_color st)]> (mem st)).

(** The variables as [terminal_initialize] sets them before its loops. *)
Definition init_regs (st : machine) : Prop :=
  terminal_row st = 0 ∧ terminal_column st = 0
  ∧ terminal_color st = vga_entry_color VGA_LIGHT_CYAN VGA_BLACK
  ∧ terminal_buffer st = VGA_MEMORY.

(** The first [n] elements of the buffer are blanks in the current colour. *)
Definition blank_upto (n : Z) (st : machine) : Prop :=
  ∀ index, 0 ≤ index < n →
    mem st !! elem_addr (terminal_buffer st) index
    = Some (vga_entry space (terminal_color st)).

(** ** Vocabulary of the specification *)

(** Printable ASCII: [0x20] to [0x7E]. *)
Definition printable (c : byte) : Prop := 32 ≤ byte_val c ≤ 126.

(** What a write of [bs] from column 0 that stays on its row leaves behind:
    the cursor behind the text on the same row, the text in the row's first
    cells under the attribute of [st], the rest of the row as it was. *)
Definition row_holds (bs : list byte) (st st' : machine) : Prop :=
  terminal_column st' = Z.of_nat (length bs)
  ∧ terminal_row st' = terminal_row st
  ∧ (∀ (k : nat) (c : byte), bs !! k = Some c →
       cell_at st' (Z.of_nat k) (terminal_row st)
       = Some (vga_entry c (terminal_color st)))
  ∧ (∀ x, Z.of_nat (length bs) ≤ x < VGA_WIDTH →
       cell_at st' x (terminal_row st) = cell_at st x (terminal_row st)).

(** The operations the driver offers to the rest of the kernel. *)
Inductive op : Type :=
  | OpInitialize
  | OpSetcolor (color : Z)
  | OpPutchar (c : byte)
  | OpWrite (data : list byte) (size : nat)
  | OpWritestring (data : list byte)
  | OpWriteline (data : list byte).

Definition exec_op (o : op) (st : machine) : option machine :=
  match o with
  | OpInitialize => Some (terminal_initialize st)
  | OpSetcolor color => Some (terminal_setcolor color st)
  | OpPutchar c => Some (terminal_putchar c st)
  | OpWrite data size => terminal_write data size st
  | OpWritestring data => terminal_writestring data st
  | OpWriteline data => terminal_writeline data st
  end.

(** A sequence of operations, one after the other. *)
Fixpoint exec_ops (os : list op) (st : machine) : option machine :=
  match os with
  | [] => Some st
  | o :: os' =>
      match exec_op o st with
      | Some st' => exec_ops os' st'
      | None => None
      end
  end.

(** The arguments of an operation denote what the C prototype asks for:
    [size] readable bytes, or a NUL-terminated string. *)
Definition op_defined (o : op) : Prop :=
  match o with
  | OpWrite data size => (size ≤ length data)%nat
  | OpWritestring data | OpWriteline data => nul ∈ data
  | _ => True
  end.

(** ** Positions in the buffer *)

Definition GRID_CELLS : Z := VGA_WIDTH * VGA_HEIGHT.

(** The index under the cursor, as [terminal_putentryat] computes it from
    the cursor's row and column. *)
Definition cursor_pos (st : machine) : Z :=
  terminal_row st * VGA_WIDTH + terminal_column st.

(** The word ([None]: never stored) in [terminal_buffer[p]]. *)
Definition buffer_cell (st : machine) (p : Z) : option Z :=
  mem st !! elem_addr (terminal_buffer st) p.

(** The byte addresses of the 2000 words of the VGA text grid. *)
Definition in_vga_buffer (a : Z) : Prop :=
  ∃ p, 0 ≤ p < GRID_CELLS ∧ a = VGA_MEMORY + 2 * p.

(** The state [st] with the memory contents [m] put underneath its own:
    an address [st] has stored to keeps its word, any other address reads
    as in [m]. *)
Definition overlay (m : gmap Z Z) (st : machine) : machine :=
  set_mem (mem st ∪ m) st.

(** The driver's variables sit where the kernel needs them: the cursor on
    the grid and the buffer pointer at the VGA text memory. *)
Definition driver_ready (st : machine) : Prop :=
  cursor_ok st ∧ terminal_buffer st = VGA_MEMORY.

(** The calls [kernel_main] makes, through [print_header], [print_info],
    [print_status] and [print_footer], in the order it makes them. *)
Definition kernel_ops : list op :=
  [ OpInitialize;
    OpSetcolor (vga_entry_color VGA_YELLOW VGA_BLACK);
    OpWriteline
      (cstr "===============================================================================");
    OpSetcolor (vga_entry_color VGA_LIGHT_CYAN VGA_BLACK);
    OpWriteline
      (cstr "                           SAGCO LIVE v0.1.0");
    OpWriteline
      (cstr "              Sovereign AI-Governed Compute Organism");
    OpSetcolor (vga_entry_color VGA_YELLOW VGA_BLACK);
    OpWriteline
      (cstr "===============================================================================");
    OpPutchar newline;
    OpSetcolor (vga_entry_color VGA_WHITE VGA_BLACK);
    OpWriteline
      (cstr "  Status: KERNEL BOOTED");
    OpWriteline
      (cstr "  Owner:  Strategickhaos DAO LLC");
    OpWriteline
      (cstr "  Motto:  Ratio Ex Nihilo");
    OpPutchar newline;
    OpSetcolor (vga_entry_color VGA_LIGHT_GREEN VGA_BLACK);
    OpWriteline
      (cstr "  [*] VGA initialized");
    OpWriteline
      (cstr "  [*] Interrupts disabled");
    OpWriteline
      (cstr "  [*] Awaiting FlameLang integration...");
    OpPutchar newline;
    OpSetcolor (vga_entry_color VGA_YELLOW VGA_BLACK);
    OpWriteline
      (cstr "===============================================================================");
    OpSetcolor (vga_entry_color VGA_LIGHT_MAGENTA VGA_BLACK);
    OpWriteline
      (cstr "  Legion of Minds: Claude + GPT + Grok = Convergence");
    OpSetcolor (vga_entry_color VGA_YELLOW VGA_BLACK);
    OpWriteline
      (cstr "===============================================================================") ].

(** The screen the banner is meant to show, row by row from the top: the
    foreground colour in force while the row was written, and its text.
    Rows below the last one are empty. *)
Definition banner_rows : list (vga_color * String.string) :=
  [ (VGA_YELLOW,
      "==============================================================================="%string);
    (VGA_LIGHT_CYAN,
      "                           SAGCO LIVE v0.1.0"%string);
    (VGA_LIGHT_CYAN,
      "              Sovereign AI-Governed Compute Organism"%string);
    (VGA_YELLOW,
      "==============================================================================="%string);
    (VGA_YELLOW,
      String.EmptyString);
    (VGA_WHITE,
      "  Status: KERNEL BOOTED"%string);
    (VGA_WHITE,
      "  Owner:  Strategickhaos DAO LLC"%string);
    (VGA_WHITE,
      "  Motto:  Ratio Ex Nihilo"%string);
    (VGA_WHITE,
      String.EmptyString);
    (VGA_LIGHT_GREEN,
      "  [*] VGA initialized"%string);
    (VGA_LIGHT_GREEN,
      "  [*] Interrupts disabled"%string);
    (VGA_LIGHT_GREEN,
      "  [*] Awaiting FlameLang integration..."%string);
    (VGA_LIGHT_GREEN,
      String.EmptyString);
    (VGA_YELLOW,
      "==============================================================================="%string);
    (VGA_LIGHT_MAGENTA,
      "  Legion of Minds: Claude + GPT + Grok = Convergence"%string);
    (VGA_YELLOW,
      "==============================================================================="%string) ].

(** The cell of an untouched position: a space in the colour of
    [terminal_initialize]. *)
Definition blank_cell : Z :=
  vga_entry space (vga_entry_color VGA_LIGHT_CYAN VGA_BLACK).

(** The cell the banner is meant to leave at column [x] of row [y]: the
    character of the row's text at that column, on black in the row's
    colour, and a blank cell past the end of the text. *)
Definition banner_cell (x y : Z) : Z :=
  match banner_rows !! Z.to_nat y with
  | Some (fg, text) =>
      match String.list_byte_of_string text !! Z.to_nat x with
      | Some c => vga_entry c (vga_entry_color fg VGA_BLACK)
      | None => blank_cell
      end
  | None => blank_cell
  end.

(** Whether a state shows the banner with the cursor below it: a check
    that runs. *)
Definition shows_banner (st : machine) : bool :=
  (terminal_row st =? 16) && (terminal_column st =? 0)
  && (terminal_color st =? vga_entry_color VGA_YELLOW VGA_BLACK)
  && forallb (λ p, match buffer_cell st p with
                   | Some w => w =? banner_cell (p mod VGA_WIDTH) (p / VGA_WIDTH)
                   | None => false
                   end) (seqZ 0 GRID_CELLS).

(** ** Basic facts *)

Lemma byte_eqb_newline (c : byte) : c ≠ newline → Byte.eqb c newline = false.
Proof.
  intros Hne. destruct (Byte.eqb c newline) eqn:E; [|reflexivity].
  apply Byte.byte_dec_bl in E. contradiction.
Qed.

Lemma byte_val_range (c : byte) : 0 ≤ byte_val c < 256.
Proof.
  unfold byte_val. pose proof (Byte.to_N_bounded c). lia.
Qed.

Lemma putchar_newline (st : machine) :
  terminal_putchar newline st =
  Machine (next_row (terminal_row st)) 0 (terminal_color st)
          (terminal_buffer st) (mem st).
Proof.
  unfold terminal_putchar, next_row. simpl.
  destruct (size_incr (terminal_row st) =? VGA_HEIGHT); reflexivity.
Qed.

Lemma putchar_other (c : byte) (st : machine) :
  c ≠ newline →
  terminal_putchar c st =
  Machine
    (if size_incr (terminal_column st) =? VGA_WIDTH
     then next_row (terminal_row st) else terminal_row st)
    (if size_incr (terminal_column st) =? VGA_WIDTH
     then 0 else size_incr (terminal_column st))
    (terminal_color st) (terminal_buffer st)
    (<[elem_addr (terminal_buffer st)
         (size_wrap (terminal_row st * VGA_WIDTH + terminal_column st))
       := vga_entry c (terminal_color st)]> (mem st)).
Proof.
  intros Hne. unfold terminal_putchar, next_row.
  rewrite (byte_eqb_newline c Hne). simpl.
  destruct (size_incr (terminal_column st) =? VGA_WIDTH); simpl;
    [destruct (size_incr (terminal_row st) =? VGA_HEIGHT)|]; reflexivity.
Qed.

Lemma size_wrap_small (x : Z) : 0 ≤ x < 2 ^ 32 → size_wrap x = x.
Proof. intros H. unfold size_wrap, SIZE_BITS. apply Z.mod_small. lia. Qed.

Lemma size_incr_small (x : Z) : 0 ≤ x < 2 ^ 32 - 1 → size_incr x = x + 1.
Proof. intros H. unfold size_incr. apply size_wrap_small. lia. Qed.

Lemma size_incr_neq (x : Z) : size_incr x ≠ x.
Proof.
  unfold size_incr, size_wrap, SIZE_BITS. intros H.
  assert (E : 2 ^ 32 = 4294967296) by reflexivity. rewrite E in H.
  pose proof (Z.mod_pos_bound (x + 1) 4294967296 ltac:(lia)) as Hb.
  pose proof (Z.div_mod (x + 1) 4294967296 ltac:(lia)) as Hd.
  rewrite H in Hb, Hd. lia.
Qed.

Lemma next_row_neq (row : Z) : next_row row ≠ row.
Proof.
  unfold next_row. destruct (size_incr row =? VGA_HEIGHT) eqn:E.
  - apply Z.eqb_eq in E. intros <-. unfold size_incr, size_wrap, SIZE_BITS,
      VGA_HEIGHT in E. vm_compute in E. discriminate.
  - apply size_incr_neq.
Qed.

Lemma next_row_grid (row : Z) :
  0 ≤ row < VGA_HEIGHT →
  next_row row = (row + 1) mod VGA_HEIGHT ∧ 0 ≤ next_row row < VGA_HEIGHT.
Proof.
  unfold next_row, VGA_HEIGHT. intros H.
  rewrite size_incr_small by lia.
  destruct (row + 1 =? 25) eqn:E.
  - apply Z.eqb_eq in E. rewrite E. split; [reflexivity | lia].
  - apply Z.eqb_neq in E. rewrite Z.mod_small by lia. lia.
Qed.

(** Distinct elements of an array shorter than [2^31] elements have
    distinct addresses, wherever the array starts. *)
Lemma elem_addr_inj (base i j : Z) :
  0 ≤ i < 2 ^ 31 → 0 ≤ j < 2 ^ 31 →
  elem_addr base i = elem_addr base j → i = j.
Proof.
  unfold elem_addr, size_wrap, SIZE_BITS. intros Hi Hj H.
  assert (E : 2 ^ 32 = 4294967296) by reflexivity.
  assert (E' : 2 ^ 31 = 2147483648) by reflexivity.
  rewrite E in H. rewrite E' in Hi, Hj.
  pose proof (Z.div_mod (base + 2 * i) 4294967296 ltac:(lia)) as H1.
  pose proof (Z.div_mod (base + 2 * j) 4294967296 ltac:(lia)) as H2.
  rewrite H in H1. lia.
Qed.

(** Index of a grid position, as [terminal_putentryat] computes it. *)
Lemma grid_index (x y : Z) :
  in_grid x y →
  size_wrap (y * VGA_WIDTH + x) = y * VGA_WIDTH + x
  ∧ 0 ≤ y * VGA_WIDTH + x < VGA_WIDTH * VGA_HEIGHT.
Proof.
  unfold in_grid, VGA_WIDTH, VGA_HEIGHT. intros [Hx Hy].
  split; [apply size_wrap_small|]; lia.
Qed.

(** Two grid positions share a cell only if they are the same position. *)
Lemma grid_addr_inj (base x y x' y' : Z) :
  in_grid x y → in_grid x' y' →
  elem_addr base (size_wrap (y * VGA_WIDTH + x)) =
  elem_addr base (size_wrap (y' * VGA_WIDTH + x')) →
  x = x' ∧ y = y'.
Proof.
  intros G G' H.
  destruct (grid_index x y G) as [E B], (grid_index x' y' G') as [E' B'].
  rewrite E, E' in H. apply elem_addr_inj in H.
  - unfold in_grid, VGA_WIDTH, VGA_HEIGHT in *. lia.
  - unfold VGA_WIDTH, VGA_HEIGHT in *. lia.
  - unfold VGA_WIDTH, VGA_HEIGHT in *. lia.
Qed.

(** ** The write loop and [strlen] on well-formed arguments *)

Lemma terminal_write_from_app (bs pre post : list byte) (st : machine) :
  terminal_write_from (pre ++ bs ++ post) (length pre) (length bs) st
  = Some (putchars bs st).
Proof.
  revert pre st. induction bs as [|c bs IH]; intros pre st; [reflexivity|].
  cbn [length terminal_write_from app].
  rewrite list_lookup_middle by reflexivity.
  specialize (IH (pre ++ [c]) (terminal_putchar c st)).
  rewrite length_app, Nat.add_1_r, <- app_assoc in IH. exact IH.
Qed.

(** Writing [size] bytes of an object that has them is defined, and is
    [terminal_putchar] on each of the first [size] bytes in order. *)
Lemma terminal_write_defined (data : list byte) (size : nat) (st : machine) :
  (size ≤ length data)%nat →
  terminal_write data size st = Some (putchars (take size data) st).
Proof.
  intros Hle. unfold terminal_write.
  pose proof (terminal_write_from_app (take size data) [] (drop size data) st) as H.
  rewrite length_take, Nat.min_l in H by exact Hle.
  cbn [app length] in H. rewrite take_drop in H. exact H.
Qed.

Lemma terminal_write_all (bs : list byte) (st : machine) :
  terminal_write bs (length bs) st = Some (putchars bs st).
Proof.
  rewrite terminal_write_defined by reflexivity. by rewrite firstn_all.
Qed.

(** Asking for more bytes than the object has reads past its end. *)
Lemma terminal_write_from_overrun (data : list byte) (n i : nat) (st : machine) :
  (i ≤ length data < i + n)%nat → terminal_write_from data i n st = None.
Proof.
  revert i st. induction n as [|n IH]; intros i st Hlt; [lia|].
  cbn [terminal_write_from].
  destruct (data !! i) eqn:E; [|reflexivity].
  apply lookup_lt_Some in E. apply IH. lia.
Qed.

Lemma strlen_from_cstring (s rest : list byte) (len : nat) :
  nul ∉ s → strlen_from (s ++ nul :: rest) len = Some (len + length s)%nat.
Proof.
  revert len. induction s as [|c s IH]; intros len Hnul; cbn [strlen_from app length].
  - change (Byte.eqb nul nul) with true. f_equal. lia.
  - apply not_elem_of_cons in Hnul as [Hc Hs].
    destruct (Byte.eqb c nul) eqn:E.
    + apply Byte.byte_dec_bl in E. congruence.
    + rewrite IH by exact Hs. f_equal. lia.
Qed.

(** Without a terminating NUL in the object, [strlen] runs off its end. *)
Lemma strlen_from_unterminated (data : list byte) (len : nat) :
  nul ∉ data → strlen_from data len = None.
Proof.
  revert len. induction data as [|c s IH]; intros len Hnul; cbn [strlen_from];
    [reflexivity|].
  apply not_elem_of_cons in Hnul as [Hc Hs].
  destruct (Byte.eqb c nul) eqn:E.
  - apply Byte.byte_dec_bl in E. congruence.
  - by apply IH.
Qed.

(** A C string: the bytes [s], none of them NUL, then NUL, then whatever
    follows in the object. *)
Lemma terminal_writestring_cstring (s rest : list byte) (st : machine) :
  nul ∉ s →
  terminal_writestring (s ++ nul :: rest) st = terminal_write s (length s) st.
Proof.
  intros Hnul. unfold terminal_writestring, strlen.
  rewrite strlen_from_cstring by exact Hnul. cbn [Nat.add].
  rewrite terminal_write_all. unfold terminal_write.
  exact (terminal_write_from_app s [] (nul :: rest) st).
Qed.

(** ** One ordinary character *)

Lemma putchar_inline (c : byte) (st : machine) :
  c ≠ newline → 0 ≤ terminal_column st < VGA_WIDTH - 1 →
  terminal_putchar c st = put_at c (terminal_row st) (terminal_column st + 1) st.
Proof.
  unfold VGA_WIDTH. intros Hc Hcol. rewrite putchar_other by exact Hc.
  rewrite size_incr_small by lia.
  destruct (terminal_column st + 1 =? VGA_WIDTH) eqn:E; [|reflexivity].
  apply Z.eqb_eq in E. unfold VGA_WIDTH in E. lia.
Qed.

Lemma putchar_eol (c : byte) (st : machine) :
  c ≠ newline → terminal_column st = VGA_WIDTH - 1 →
  terminal_putchar c st = put_at c (next_row (terminal_row st)) 0 st.
Proof.
  intros Hc Hcol. rewrite putchar_other by exact Hc.
  assert (E : (size_incr (terminal_column st) =? VGA_WIDTH) = true)
    by (rewrite Hcol; reflexivity).
  rewrite E. reflexivity.
Qed.

Lemma cell_at_put_same (c : byte) (row' col' : Z) (st : machine) :
  cell_at (put_at c row' col' st) (terminal_column st) (terminal_row st)
  = Some (vga_entry c (terminal_color st)).
Proof. unfold cell_at, put_at. cbn. apply lookup_insert_eq. Qed.

Lemma cell_at_put_other (c : byte) (row' col' x y : Z) (st : machine) :
  in_grid (terminal_column st) (terminal_row st) → in_grid x y →
  ¬ (x = terminal_column st ∧ y = terminal_row st) →
  cell_at (put_at c row' col' st) x y = cell_at st x y.
Proof.
  intros Gc Gxy Hne. unfold cell_at, put_at. cbn.
  apply lookup_insert_ne. intros H. apply grid_addr_inj in H; [|done..].
  apply Hne. destruct H; by split.
Qed.

(** ** A run of ordinary characters that stays inside the current row *)

Lemma putchars_within_row (bs : list byte) (st : machine) :
  newline ∉ bs →
  0 ≤ terminal_row st < VGA_HEIGHT → 0 ≤ terminal_column st →
  terminal_column st + Z.of_nat (length bs) < VGA_WIDTH →
  terminal_row (putchars bs st) = terminal_row st
  ∧ terminal_column (putchars bs st) = terminal_column st + Z.of_nat (length bs)
  ∧ terminal_color (putchars bs st) = terminal_color st
  ∧ terminal_buffer (putchars bs st) = terminal_buffer st
  ∧ (∀ (k : nat) (c : byte), bs !! k = Some c →
       cell_at (putchars bs st) (terminal_column st + Z.of_nat k) (terminal_row st)
       = Some (vga_entry c (terminal_color st)))
  ∧ (∀ x y, in_grid x y →
       ¬ (y = terminal_row st
          ∧ terminal_column st ≤ x < terminal_column st + Z.of_nat (length bs)) →
       cell_at (putchars bs st) x y = cell_at st x y).
Proof.
  revert st. induction bs as [|c bs IH]; intros st Hnl Hrow Hcol Hlen.
  - cbn. repeat split; try lia. intros k c Hk. by rewrite lookup_nil in Hk.
  - apply not_elem_of_cons in Hnl as [Hc Hbs].
    cbn [length] in Hlen. unfold VGA_WIDTH in Hlen.
    assert (Gc : in_grid (terminal_column st) (terminal_row st)).
    { unfold in_grid, VGA_WIDTH. lia. }
    cbn [putchars foldl]. fold (putchars bs (terminal_putchar c st)).
    rewrite putchar_inline by (unfold VGA_WIDTH; done || lia).
    set (st1 := put_at c (terminal_row st) (terminal_column st + 1) st).
    destruct (IH st1) as (Hr & Hco & Hcl & Hb & Hcells & Hframe);
      [done | done | cbn; lia | cbn; unfold VGA_WIDTH; lia |].
    cbn in Hr, Hco, Hcl, Hb, Hcells, Hframe.
    repeat split.
    + exact Hr.
    + rewrite Hco. cbn [length]. lia.
    + exact Hcl.
    + exact Hb.
    + intros [|k] c' Hk.
      * cbn in Hk. injection Hk as <-. rewrite Z.add_0_r.
        rewrite Hframe; [apply cell_at_put_same | done | lia].
      * cbn in Hk. specialize (Hcells k c' Hk).
        replace (terminal_column st + Z.of_nat (S k))
          with (terminal_column st + 1 + Z.of_nat k) by lia.
        exact Hcells.
    + intros x y G Hout. cbn [length] in Hout.
      rewrite Hframe; [|done|lia].
      apply cell_at_put_other; [done..|lia].
Qed.

(** ** The cell encoding *)

(** OR-ing a value below [2^n] with one shifted left by [n] adds them. *)
Lemma lor_shiftl_add (lo hi n : Z) :
  0 ≤ n → 0 ≤ lo < 2 ^ n → Z.lor lo (Z.shiftl hi n) = lo + hi * 2 ^ n.
Proof.
  intros Hn Hlo. rewrite Z.shiftl_mul_pow2 by exact Hn.
  symmetry. apply Z.add_nocarry_lor. apply Z.bits_inj'. intros i Hi.
  rewrite Z.land_spec, Z.bits_0.
  destruct (Z.lt_ge_cases i n) as [Hlt|Hge].
  - rewrite (Z.mul_pow2_bits_low hi n i) by exact Hlt. apply andb_false_r.
  - rewrite <- (Z.mod_small lo (2 ^ n)) by exact Hlo.
    rewrite Z.mod_pow2_bits_high by lia. reflexivity.
Qed.

Lemma vga_color_val_range (c : vga_color) : 0 ≤ vga_color_val c < 16.
Proof. destruct c; cbn; lia. Qed.

Lemma vga_entry_color_add (fg bg : vga_color) :
  vga_entry_color fg bg = vga_color_val fg + 16 * vga_color_val bg.
Proof.
  unfold vga_entry_color, to_uint8.
  pose proof (vga_color_val_range fg). pose proof (vga_color_val_range bg).
  rewrite lor_shiftl_add by lia. change (2 ^ 4) with 16. change (2 ^ 8) with 256.
  rewrite Z.mod_small; lia.
Qed.

Lemma vga_entry_add (c : byte) (a : Z) :
  0 ≤ a < 256 → vga_entry c a = byte_val c + 256 * a.
Proof.
  intros Ha. pose proof (byte_val_range c) as Hc.
  unfold vga_entry, to_uint16. change (2 ^ 16) with 65536.
  rewrite (Z.mod_small (byte_val c)), (Z.mod_small a) by lia.
  rewrite lor_shiftl_add by lia. change (2 ^ 8) with 256.
  rewrite Z.mod_small; lia.
Qed.

(** Whatever the attribute argument, the low byte of the cell is the
    character. *)
Lemma cell_char_vga_entry (c : byte) (a : Z) :
  cell_char (vga_entry c a) = byte_val c.
Proof.
  pose proof (byte_val_range c) as Hc.
  unfold cell_char, vga_entry, to_uint16. change (2 ^ 16) with 65536.
  rewrite (Z.mod_small (byte_val c)) by lia.
  rewrite lor_shiftl_add by lia. change (2 ^ 8) with 256.
  change 255 with (Z.ones 8). rewrite Z.land_ones by lia. change (2 ^ 8) with 256.
  Z.div_mod_to_equations. lia.
Qed.

Lemma cell_attr_vga_entry (c : byte) (a : Z) :
  0 ≤ a < 256 → cell_attr (vga_entry c a) = a.
Proof.
  intros Ha. pose proof (byte_val_range c) as Hc.
  rewrite vga_entry_add by exact Ha.
  unfold cell_attr. rewrite Z.shiftr_div_pow2 by lia. change (2 ^ 8) with 256.
  Z.div_mod_to_equations. lia.
Qed.

(** ** Loops *)

Lemma for_upto_0 {A : Type} (body : Z → A → A) (a : A) : for_upto 0 body a = a.
Proof. reflexivity. Qed.

Lemma for_upto_succ {A : Type} (n : Z) (body : Z → A → A) (a : A) :
  0 ≤ n → for_upto (n + 1) body a = body n (for_upto n body a).
Proof.
  intros Hn. unfold for_upto.
  rewrite <- (Z2Nat.id n) by exact Hn.
  replace (Z.of_nat (Z.to_nat n) + 1) with (Z.of_nat (Datatypes.S (Z.to_nat n)))
    by lia.
  rewrite seqZ_S, foldl_snoc. reflexivity.
Qed.

(** The loop-invariant rule for a counting loop. *)
Lemma for_upto_invariant {A : Type} (I : Z → A → Prop) (n : Z)
    (body : Z → A → A) (a : A) :
  0 ≤ n → I 0 a →
  (∀ i acc, 0 ≤ i < n → I i acc → I (i + 1) (body i acc)) →
  I n (for_upto n body a).
Proof.
  intros Hn H0 Hstep.
  assert (H : ∀ k, 0 ≤ k → k ≤ n → I k (for_upto k body a)).
  { apply (natlike_ind (λ k, k ≤ n → I k (for_upto k body a))).
    - intros _. exact H0.
    - intros k Hk IH Hle. unfold Z.succ. rewrite for_upto_succ by exact Hk.
      apply Hstep; [lia|]. apply IH. lia. }
  apply H; lia.
Qed.

(** ** Initialisation *)

Lemma blank_store (n index : Z) (st : machine) :
  init_regs st → blank_upto n st → 0 ≤ index < 2 ^ 32 → index ≤ n →
  let st' := buffer_store (size_wrap index)
               (vga_entry space (terminal_color st)) st in
  init_regs st' ∧ blank_upto (Z.max n (index + 1)) st'.
Proof.
  intros Hregs Hblank Hidx Hle st'. split; [exact Hregs|].
  intros j Hj. unfold st', buffer_store. cbn.
  rewrite lookup_insert. case_decide as E; [reflexivity|].
  apply Hblank. rewrite size_wrap_small in E by exact Hidx.
  destruct (decide (j = index)) as [->|Hne]; [contradiction|lia].
Qed.

Lemma initialize_row (y : Z) (st : machine) :
  0 ≤ y < VGA_HEIGHT → init_regs st → blank_upto (y * VGA_WIDTH) st →
  let st' := for_upto VGA_WIDTH (λ x st,
               let index := size_wrap (y * VGA_WIDTH + x) in
               buffer_store index (vga_entry space (terminal_color st)) st) st in
  init_regs st' ∧ blank_upto ((y + 1) * VGA_WIDTH) st'.
Proof.
  intros Hy Hregs Hblank. cbn zeta.
  replace ((y + 1) * VGA_WIDTH) with (y * VGA_WIDTH + VGA_WIDTH) by lia.
  apply (for_upto_invariant
           (λ x s, init_regs s ∧ blank_upto (y * VGA_WIDTH + x) s)).
  - unfold VGA_WIDTH. lia.
  - rewrite Z.add_0_r. by split.
  - intros x s Hx [Hr Hb]. cbn beta zeta.
    unfold VGA_WIDTH, VGA_HEIGHT in *.
    pose proof (blank_store (y * 80 + x) (y * 80 + x) s Hr Hb) as H.
    cbn zeta in H. rewrite Z.max_r in H by lia.
    rewrite Z.add_assoc. apply H; lia.
Qed.

Lemma initialize_spec (st : machine) :
  init_regs (terminal_initialize st)
  ∧ blank_upto (VGA_HEIGHT * VGA_WIDTH) (terminal_initialize st).
Proof.
  unfold terminal_initialize. cbn zeta.
  apply (for_upto_invariant (λ y s, init_regs s ∧ blank_upto (y * VGA_WIDTH) s)).
  - unfold VGA_HEIGHT. lia.
  - split; [by repeat split|]. intros j Hj. lia.
  - intros y s Hy [Hr Hb]. by apply initialize_row.
Qed.

(** ** The cursor stays on the grid *)

Lemma putchar_cursor_ok (c : byte) (st : machine) :
  cursor_ok st → cursor_ok (terminal_putchar c st).
Proof.
  intros [Hrow Hcol]. pose proof (next_row_grid _ Hrow) as [_ Hnext].
  destruct (decide (c = newline)) as [->|Hc].
  - rewrite putchar_newline. split; cbn; [exact Hnext | unfold VGA_WIDTH; lia].
  - rewrite putchar_other by exact Hc.
    rewrite size_incr_small by (unfold VGA_WIDTH in Hcol; lia).
    destruct (terminal_column st + 1 =? VGA_WIDTH) eqn:E; split; cbn;
      [exact Hnext | unfold VGA_WIDTH; lia | exact Hrow |].
    apply Z.eqb_neq in E. unfold VGA_WIDTH in *. lia.
Qed.

Lemma putchars_cursor_ok (bs : list byte) (st : machine) :
  cursor_ok st → cursor_ok (putchars bs st).
Proof.
  revert st. induction bs as [|c bs IH]; intros st Hok; [exact Hok|].
  apply IH. by apply putchar_cursor_ok.
Qed.

Lemma strlen_terminated (data : list byte) (len : nat) :
  nul ∈ data →
  ∃ n, strlen_from data len = Some (len + n)%nat ∧ (n < length data)%nat.
Proof.
  revert len. induction data as [|c data IH]; intros len Hin.
  - by apply elem_of_nil in Hin.
  - cbn [strlen_from length]. destruct (Byte.eqb c nul) eqn:E.
    + exists 0%nat. split; [f_equal; lia | lia].
    + apply elem_of_cons in Hin as [Heq|Hin].
      * subst c. discriminate E.
      * destruct (IH (Datatypes.S len) Hin) as (n & Hn & Hlt).
        exists (Datatypes.S n). split; [rewrite Hn; f_equal; lia | lia].
Qed.

Lemma exec_op_cursor_ok (o : op) (st : machine) :
  cursor_ok st → op_defined o →
  ∃ st', exec_op o st = Some st' ∧ cursor_ok st'.
Proof.
  intros Hok Hdef. destruct o as [|color|c|data size|data|data]; cbn in *.
  - eexists. split; [reflexivity|].
    destruct (initialize_spec st) as [(Hr & Hc & _) _].
    unfold cursor_ok, VGA_HEIGHT, VGA_WIDTH. rewrite Hr, Hc. lia.
  - eexists. split; [reflexivity|]. exact Hok.
  - eexists. split; [reflexivity|]. by apply putchar_cursor_ok.
  - rewrite terminal_write_defined by exact Hdef.
    eexists. split; [reflexivity|]. by apply putchars_cursor_ok.
  - unfold terminal_writestring, strlen.
    destruct (strlen_terminated data 0 Hdef) as (n & -> & Hlt). cbn [Nat.add].
    rewrite terminal_write_defined by lia.
    eexists. split; [reflexivity|]. by apply putchars_cursor_ok.
  - unfold terminal_writeline, terminal_writestring, strlen.
    destruct (strlen_terminated data 0 Hdef) as (n & -> & Hlt). cbn [Nat.add].
    rewrite terminal_write_defined by lia.
    eexists. split; [reflexivity|].
    by apply putchar_cursor_ok, putchars_cursor_ok.
Qed.

(** ** A run of ordinary characters that ends exactly at the end of the row *)

Lemma putchars_fill_row (bs : list byte) (st : machine) :
  newline ∉ bs → bs ≠ [] →
  0 ≤ terminal_row st < VGA_HEIGHT → 0 ≤ terminal_column st →
  terminal_column st + Z.of_nat (length bs) = VGA_WIDTH →
  terminal_row (putchars bs st) = next_row (terminal_row st)
  ∧ terminal_column (putchars bs st) = 0.
Proof.
  intros Hnl Hne Hrow Hcol Hlen.
  destruct (exists_last Hne) as (front & c & ->).
  apply not_elem_of_app in Hnl as [Hfront Hc].
  apply not_elem_of_cons in Hc as [Hc _].
  rewrite length_app in Hlen. cbn [length] in Hlen.
  unfold putchars. rewrite foldl_snoc. fold (putchars front st).
  destruct (putchars_within_row front st) as (Hr & Hco & _);
    [done | done | done | lia |].
  rewrite putchar_eol; [|done|lia]. cbn. by rewrite Hr.
Qed.

(** * The claims *)

(** ** C1: a short write stays on its row *)

(** C1 (as amended): for every printable byte sequence [bs] without a
    newline whose length is strictly below the width, writing [bs] with
    [terminal_write] from column 0 of a grid row returns, leaves the cursor
    on the same row at column [length bs], leaves [bs] in order in the
    first [length bs] cells of that row under the current attribute, and
    leaves the cells of the row from column [length bs] on as they were. *)
Theorem terminal_write_short_row (bs : list byte) (st : machine) :
  Forall printable bs → newline ∉ bs →
  Z.of_nat (length bs) < VGA_WIDTH →
  cursor_ok st → terminal_column st = 0 →
  ∃ st', terminal_write bs (length bs) st = Some st' ∧ row_holds bs st st'.
Proof.
  intros _ Hnl Hlen [Hrow _] Hcol.
  exists (putchars bs st). split; [apply terminal_write_all|].
  destruct (putchars_within_row bs st) as (Hr & Hco & _ & _ & Hcells & Hframe);
    [done | done | lia | lia |].
  rewrite Hcol in Hco, Hcells, Hframe. unfold row_holds.
  split; [by rewrite Hco|]. split; [exact Hr|]. split.
  - intros k c Hk. specialize (Hcells k c Hk). by rewrite Z.add_0_l in Hcells.
  - intros x Hx. apply Hframe; [unfold in_grid; lia | lia].
Qed.

Lemma terminal_write_short_row_witness :
  ∃ st', terminal_write ["A"; "B"]%byte 2 (terminal_initialize boot_state)
         = Some st'
         ∧ row_holds ["A"; "B"]%byte (terminal_initialize boot_state) st'.
Proof.
  apply (terminal_write_short_row ["A"; "B"]%byte (terminal_initialize boot_state)).
  - repeat constructor; vm_compute; discriminate.
  - intros H. repeat (apply elem_of_cons in H as [H|H]; [discriminate H|]).
    by apply elem_of_nil in H.
  - reflexivity.
  - vm_compute. repeat split; discriminate.
  - reflexivity.
Defined.

(** C1 as stated fails when the length equals the width: eighty letters
    written from column 0 of row 0 leave the cursor at column 0 of row 1. *)
Lemma terminal_write_width_counterexample :
  let bs := replicate 80 "A"%byte in
  let st := terminal_initialize boot_state in
  Forall printable bs ∧ (newline ∉ bs)
  ∧ (Z.of_nat (length bs) ≤ VGA_WIDTH)
  ∧ cursor_ok st ∧ terminal_column st = 0
  ∧ ∃ st', terminal_write bs (length bs) st = Some st'
           ∧ terminal_column st' = 0 ∧ terminal_row st' = 1
           ∧ ¬ row_holds bs st st'.
Proof.
  intros bs st.
  split. { apply Forall_replicate. vm_compute. split; discriminate. }
  split. { intros H. apply elem_of_replicate in H as [H _]. discriminate H. }
  split. { vm_compute. discriminate. }
  split. { vm_compute. repeat split; discriminate. }
  split. { vm_compute. reflexivity. }
  exists (putchars bs st). split; [apply terminal_write_all|].
  split; [vm_compute; reflexivity|]. split; [vm_compute; reflexivity|].
  intros [Hcol _]. vm_compute in Hcol. discriminate Hcol.
Qed.

(** ** C2: the newline character *)

(** C2: [terminal_putchar] of the newline character, whatever the column
    and whatever the state, sets the column to 0 and stores nothing
    (memory, and so every cell, is as before, and so are colour and
    buffer); it increments the row and resets it to 0 when the incremented
    row equals the height.  From a cursor on a grid row that is the row
    [row + 1] modulo the height: [row + 1], unless that equals the height,
    in which case 0. *)
Theorem putchar_newline_advances (st : machine) :
  let st' := terminal_putchar newline st in
  terminal_column st' = 0
  ∧ mem st' = mem st
  ∧ (∀ x y, cell_at st' x y = cell_at st x y)
  ∧ terminal_color st' = terminal_color st
  ∧ terminal_buffer st' = terminal_buffer st
  ∧ terminal_row st' =
      (if size_incr (terminal_row st) =? VGA_HEIGHT
       then 0 else size_incr (terminal_row st))
  ∧ (0 ≤ terminal_row st < VGA_HEIGHT →
       terminal_row st' = (terminal_row st + 1) mod VGA_HEIGHT
       ∧ terminal_row st' =
           (if terminal_row st + 1 =? VGA_HEIGHT
            then 0 else terminal_row st + 1)).
Proof.
  intros st'. unfold st'. rewrite putchar_newline. cbn.
  do 6 (split; [done|]). intros Hrow.
  destruct (next_row_grid _ Hrow) as [Hmod _]. split; [exact Hmod|].
  unfold next_row. rewrite size_incr_small; [done|].
  unfold VGA_HEIGHT in Hrow. lia.
Qed.

Lemma putchar_newline_advances_witness :
  let st := set_row 24 (set_column 79 (terminal_initialize boot_state)) in
  terminal_column (terminal_putchar newline st) = 0
  ∧ terminal_row (terminal_putchar newline st) = 0
  ∧ mem (terminal_putchar newline st) = mem st.
Proof.
  intros st.
  destruct (putchar_newline_advances st) as (Hc & Hm & _ & _ & _ & _ & Hr).
  destruct Hr as [Hr _]; [cbn; unfold VGA_HEIGHT; lia|].
  split; [exact Hc|]. split; [exact Hr | exact Hm].
Defined.

(** ** C3: a write of exactly one row *)

(** C3: for every byte sequence of length exactly the width and without a
    newline, [terminal_write] from column 0 of a grid row returns and
    leaves the cursor at column 0 of the row [row + 1] modulo the height. *)
Theorem terminal_write_full_row (bs : list byte) (st : machine) :
  Z.of_nat (length bs) = VGA_WIDTH → newline ∉ bs →
  cursor_ok st → terminal_column st = 0 →
  ∃ st', terminal_write bs (length bs) st = Some st'
         ∧ terminal_column st' = 0
         ∧ terminal_row st' = (terminal_row st + 1) mod VGA_HEIGHT.
Proof.
  intros Hlen Hnl [Hrow _] Hcol.
  exists (putchars bs st). split; [apply terminal_write_all|].
  destruct (putchars_fill_row bs st) as [Hr Hc]; [done | | done | lia | lia |].
  - intros ->. cbn in Hlen. unfold VGA_WIDTH in Hlen. lia.
  - split; [exact Hc|]. rewrite Hr. by apply next_row_grid.
Qed.

Lemma terminal_write_full_row_witness :
  ∃ st', terminal_write (replicate 80 "x"%byte) 80
           (set_row 24 (terminal_initialize boot_state)) = Some st'
         ∧ terminal_column st' = 0 ∧ terminal_row st' = 0.
Proof.
  apply (terminal_write_full_row (replicate 80 "x"%byte)
           (set_row 24 (terminal_initialize boot_state))).
  - reflexivity.
  - intros H. apply elem_of_replicate in H as [H _]. discriminate H.
  - vm_compute. repeat split; discriminate.
  - reflexivity.
Defined.

(** ** C4: the cursor never leaves the grid *)

(** C4: the cursor-bounds invariant [0 <= row < 25], [0 <= column < 80]
    holds after [terminal_initialize] from any state; every operation of
    the driver run on arguments of the kind its prototype asks for returns
    and preserves it; an operation that returns at all preserves it; and so
    it holds after every sequence of operations that follows an
    initialisation, that is at all times between operations. *)
Theorem cursor_bounds_invariant :
  (∀ st, cursor_ok (terminal_initialize st))
  ∧ (∀ o st, cursor_ok st → op_defined o →
       ∃ st', exec_op o st = Some st' ∧ cursor_ok st')
  ∧ (∀ o st st', cursor_ok st → exec_op o st = Some st' → cursor_ok st')
  ∧ (∀ os st, Forall op_defined os →
       ∃ st', exec_ops os (terminal_initialize st) = Some st' ∧ cursor_ok st').
Proof.
  assert (Hinit : ∀ st, cursor_ok (terminal_initialize st)).
  { intros st. destruct (initialize_spec st) as [(Hr & Hc & _) _].
    unfold cursor_ok, VGA_HEIGHT, VGA_WIDTH. rewrite Hr, Hc. lia. }
  split; [exact Hinit|]. split; [intros o st; apply exec_op_cursor_ok|]. split.
  - intros o st st' Hok Hex.
    destruct o as [|color|c|data size|data|data]; cbn in Hex.
    + injection Hex as <-. apply Hinit.
    + injection Hex as <-. exact Hok.
    + injection Hex as <-. by apply putchar_cursor_ok.
    + destruct (decide (size ≤ length data)%nat) as [Hle|Hgt].
      * rewrite terminal_write_defined in Hex by exact Hle.
        injection Hex as <-. by apply putchars_cursor_ok.
      * unfold terminal_write in Hex.
        rewrite terminal_write_from_overrun in Hex by lia. discriminate Hex.
    + unfold terminal_writestring in Hex.
      destruct (strlen data) as [len|]; [|discriminate Hex].
      destruct (decide (len ≤ length data)%nat) as [Hle|Hgt].
      * rewrite terminal_write_defined in Hex by exact Hle.
        injection Hex as <-. by apply putchars_cursor_ok.
      * unfold terminal_write in Hex.
        rewrite terminal_write_from_overrun in Hex by lia. discriminate Hex.
    + unfold terminal_writeline, terminal_writestring in Hex.
      destruct (strlen data) as [len|]; [|discriminate Hex].
      destruct (decide (len ≤ length data)%nat) as [Hle|Hgt].
      * rewrite terminal_write_defined in Hex by exact Hle.
        injection Hex as <-. by apply putchar_cursor_ok, putchars_cursor_ok.
      * unfold terminal_write in Hex.
        rewrite terminal_write_from_overrun in Hex by lia. discriminate Hex.
  - intros os st Hdef. generalize (terminal_initialize st) (Hinit st).
    induction Hdef as [|o os Ho _ IH]; intros s Hok.
    + exists s. by split.
    + cbn [exec_ops].
      destruct (exec_op_cursor_ok o s Hok Ho) as (s' & -> & Hok').
      by apply IH.
Qed.

Lemma cursor_bounds_invariant_witness :
  ∃ st', exec_ops [OpSetcolor 14; OpWriteline ["A"; "B"; "000"]%byte;
                   OpWrite (replicate 200 "x"%byte) 200; OpPutchar newline]
           (terminal_initialize boot_state) = Some st'
         ∧ cursor_ok st'.
Proof.
  destruct cursor_bounds_invariant as (_ & _ & _ & H).
  apply H. repeat constructor.
Defined.

(** ** C5: [terminal_writeline] *)

(** C5: for every C string (bytes [s] without NUL, then NUL, then whatever
    follows in the object), [terminal_write] of the bytes of [s] returns a
    state [st'], and [terminal_writeline] returns exactly the state that one
    [terminal_putchar] of newline makes of [st']; that state is neither
    [st'] itself (no newline) nor what a second newline would make of it. *)
Theorem writeline_is_write_then_newline (s rest : list byte) (st : machine) :
  nul ∉ s →
  ∃ st', terminal_write s (length s) st = Some st'
         ∧ terminal_writeline (s ++ nul :: rest) st
           = Some (terminal_putchar newline st')
         ∧ terminal_putchar newline st' ≠ st'
         ∧ terminal_putchar newline st'
           ≠ terminal_putchar newline (terminal_putchar newline st').
Proof.
  intros Hnul. exists (putchars s st).
  split; [apply terminal_write_all|]. split.
  - unfold terminal_writeline.
    rewrite terminal_writestring_cstring by exact Hnul.
    by rewrite terminal_write_all.
  - assert (Hmoves : ∀ m, terminal_putchar newline m ≠ m).
    { intros m H. apply (f_equal terminal_row) in H.
      rewrite putchar_newline in H. cbn in H. by apply next_row_neq in H. }
    split; [apply Hmoves|]. intros H. symmetry in H. by apply Hmoves in H.
Qed.

Lemma writeline_is_write_then_newline_witness :
  ∃ st', terminal_write ["o"; "k"]%byte 2 (terminal_initialize boot_state)
         = Some st'
         ∧ terminal_writeline ["o"; "k"; "000"; "!"]%byte
             (terminal_initialize boot_state)
           = Some (terminal_putchar newline st')
         ∧ terminal_putchar newline st' ≠ st'
         ∧ terminal_putchar newline st'
           ≠ terminal_putchar newline (terminal_putchar newline st').
Proof.
  apply (writeline_is_write_then_newline ["o"; "k"]%byte ["!"]%byte
           (terminal_initialize boot_state)).
  intros H. repeat (apply elem_of_cons in H as [H|H]; [discriminate H|]).
  by apply elem_of_nil in H.
Defined.

(** ** C6: the state after initialisation *)

(** C6: after [terminal_initialize], from any state, the cursor is at row
    0, column 0, the attribute is the packing of light cyan on black (light
    cyan in the low nibble, black in the high one), the buffer is the VGA
    text memory, and every cell of the 80 x 25 grid is the cell made of the
    space character and that attribute. *)
Theorem initialize_blank_grid (st : machine) :
  let st' := terminal_initialize st in
  terminal_row st' = 0 ∧ terminal_column st' = 0
  ∧ terminal_color st' = vga_entry_color VGA_LIGHT_CYAN VGA_BLACK
  ∧ terminal_color st'
    = vga_color_val VGA_LIGHT_CYAN + 16 * vga_color_val VGA_BLACK
  ∧ terminal_buffer st' = VGA_MEMORY
  ∧ (∀ x y, in_grid x y →
       cell_at st' x y = Some (vga_entry space (terminal_color st'))
       ∧ cell_char (vga_entry space (terminal_color st')) = byte_val space
       ∧ cell_attr (vga_entry space (terminal_color st')) = terminal_color st').
Proof.
  cbn zeta. destruct (initialize_spec st) as [(Hr & Hc & Hcol & Hb) Hblank].
  split; [exact Hr|]. split; [exact Hc|]. split; [exact Hcol|].
  split; [by rewrite Hcol, vga_entry_color_add|]. split; [exact Hb|].
  intros x y G. split; [|split].
  - unfold cell_at. destruct (grid_index x y G) as [-> Hidx].
    apply Hblank. lia.
  - apply cell_char_vga_entry.
  - apply cell_attr_vga_entry. rewrite Hcol, vga_entry_color_add. cbn. lia.
Qed.

Lemma initialize_blank_grid_witness :
  cell_at (terminal_initialize boot_state) 79 24 = Some 0x0B20
  ∧ cell_at (terminal_initialize boot_state) 0 0 = Some 0x0B20.
Proof.
  destruct (initialize_blank_grid boot_state) as (_ & _ & Hcol & _ & _ & H).
  rewrite Hcol in H. split.
  - apply (H 79 24). vm_compute. repeat split; discriminate.
  - apply (H 0 0). vm_compute. repeat split; discriminate.
Defined.

(** ** C7: wrapping from the last row to the first *)

(** C7: with the cursor on the last row, a newline sets the row to 0 and
    leaves memory as it was; and a byte other than newline written in the
    last column sets the cursor to row 0, column 0, and leaves memory
    exactly as the single cell store of [terminal_putentryat] made it:
    every grid cell but the one under the old cursor is as before, so no
    row is shifted and the top row is not cleared. *)
Theorem row_wrap_keeps_grid (st : machine) :
  terminal_row st = VGA_HEIGHT - 1 →
  (terminal_row (terminal_putchar newline st) = 0
   ∧ mem (terminal_putchar newline st) = mem st)
  ∧ (∀ c, c ≠ newline → terminal_column st = VGA_WIDTH - 1 →
       let st' := terminal_putchar c st in
       terminal_row st' = 0 ∧ terminal_column st' = 0
       ∧ mem st' = mem (terminal_putentryat c (terminal_color st)
                          (terminal_column st) (terminal_row st) st)
       ∧ (∀ x y, in_grid x y → ¬ (x = VGA_WIDTH - 1 ∧ y = VGA_HEIGHT - 1) →
            cell_at st' x y = cell_at st x y)).
Proof.
  intros Hrow.
  assert (Hnext : next_row (terminal_row st) = 0) by (by rewrite Hrow).
  split.
  - rewrite putchar_newline. cbn. by split.
  - intros c Hc Hcol st'. unfold st'. rewrite putchar_eol by done.
    split; [exact Hnext|]. split; [reflexivity|]. split; [reflexivity|].
    intros x y G Hne. apply cell_at_put_other; [|exact G|].
    + rewrite Hrow, Hcol. unfold in_grid, VGA_WIDTH, VGA_HEIGHT. lia.
    + by rewrite Hrow, Hcol.
Qed.

Lemma row_wrap_keeps_grid_witness :
  let st := set_row 24 (set_column 79 (terminal_initialize boot_state)) in
  terminal_row (terminal_putchar "Z"%byte st) = 0
  ∧ cell_at (terminal_putchar "Z"%byte st) 0 0 = cell_at st 0 0
  ∧ cell_at (terminal_putchar "Z"%byte st) 78 24 = cell_at st 78 24.
Proof.
  intros st.
  destruct (row_wrap_keeps_grid st) as [_ H]; [reflexivity|].
  destruct (H "Z"%byte) as (Hr & _ & _ & Hcells); [discriminate | reflexivity |].
  split; [exact Hr|]. split.
  - apply Hcells; vm_compute; [repeat split; discriminate|].
    intros [E _]. discriminate E.
  - apply Hcells; vm_compute; [repeat split; discriminate|].
    intros [E _]. discriminate E.
Defined.

(** ** C8: the cell encoding *)

(** C8: for all colours [fg] and [bg] (each a 4-bit value) the packed
    attribute is [fg | (bg << 4)], a byte whose low nibble is [fg] and whose
    high nibble is [bg]; and for every character byte [c] and attribute
    byte [a] the cell is [c | (a << 8)], a 16-bit word whose low byte is
    [c] and whose high byte is [a]. *)
Theorem cell_encoding :
  (∀ fg bg,
     vga_entry_color fg bg
     = Z.lor (vga_color_val fg) (Z.shiftl (vga_color_val bg) 4)
     ∧ 0 ≤ vga_color_val fg < 16 ∧ 0 ≤ vga_color_val bg < 16
     ∧ 0 ≤ vga_entry_color fg bg < 256
     ∧ Z.land (vga_entry_color fg bg) 0xF = vga_color_val fg
     ∧ Z.shiftr (vga_entry_color fg bg) 4 = vga_color_val bg)
  ∧ (∀ c a, 0 ≤ a < 256 →
       vga_entry c a = Z.lor (byte_val c) (Z.shiftl a 8)
       ∧ 0 ≤ vga_entry c a < 65536
       ∧ cell_char (vga_entry c a) = byte_val c
       ∧ cell_attr (vga_entry c a) = a).
Proof.
  split.
  - intros fg bg. destruct fg, bg; vm_compute; repeat split; discriminate.
  - intros c a Ha. pose proof (byte_val_range c) as Hc.
    split; [|split; [|split]].
    + rewrite vga_entry_add by exact Ha. rewrite lor_shiftl_add by lia.
      change (2 ^ 8) with 256. lia.
    + rewrite vga_entry_add by exact Ha. lia.
    + apply cell_char_vga_entry.
    + by apply cell_attr_vga_entry.
Qed.

Lemma cell_encoding_witness :
  vga_entry "A"%byte 0x1E = 0x1E41
  ∧ cell_char (vga_entry "A"%byte 0x1E) = 0x41
  ∧ cell_attr (vga_entry "A"%byte 0x1E) = 0x1E.
Proof.
  destruct cell_encoding as [_ H].
  destruct (H "A"%byte 0x1E) as (He & _ & Hc & Ha); [lia|].
  split; [|split].
  - rewrite He. reflexivity.
  - rewrite Hc. reflexivity.
  - exact Ha.
Defined.

(** ** C9: every byte but newline is written literally *)

(** C9: for every byte [c] other than newline, and a cursor on the grid,
    [terminal_putchar] stores the cell of [c] and the current attribute
    under the cursor (its low byte is [c]), changes no other grid cell,
    advances the column by one, wrapping to column 0 of the next row
    (modulo the height) at the end of the line, and keeps colour and
    buffer; [terminal_write] of that one byte with length 1 does the
    same. *)
Theorem putchar_literal (c : byte) (st : machine) :
  c ≠ newline → cursor_ok st →
  let st' := terminal_putchar c st in
  cell_at st' (terminal_column st) (terminal_row st)
  = Some (vga_entry c (terminal_color st))
  ∧ cell_char (vga_entry c (terminal_color st)) = byte_val c
  ∧ (∀ x y, in_grid x y → ¬ (x = terminal_column st ∧ y = terminal_row st) →
       cell_at st' x y = cell_at st x y)
  ∧ terminal_column st' = (terminal_column st + 1) mod VGA_WIDTH
  ∧ terminal_row st' =
      (if terminal_column st + 1 =? VGA_WIDTH
       then (terminal_row st + 1) mod VGA_HEIGHT else terminal_row st)
  ∧ terminal_color st' = terminal_color st
  ∧ terminal_buffer st' = terminal_buffer st
  ∧ terminal_write [c] 1 st = Some st'.
Proof.
  intros Hc [Hrow Hcol] st'.
  assert (G : in_grid (terminal_column st) (terminal_row st)) by done.
  destruct (next_row_grid _ Hrow) as [Hnext _].
  assert (Hput : ∃ r k, st' = put_at c r k st
            ∧ k = (terminal_column st + 1) mod VGA_WIDTH
            ∧ r = (if terminal_column st + 1 =? VGA_WIDTH
                   then (terminal_row st + 1) mod VGA_HEIGHT
                   else terminal_row st)).
  { unfold st'. destruct (terminal_column st + 1 =? VGA_WIDTH) eqn:E.
    - apply Z.eqb_eq in E. eexists _, _.
      split; [apply putchar_eol; [done|lia]|]. split; [|exact Hnext].
      rewrite E. reflexivity.
    - apply Z.eqb_neq in E. unfold VGA_WIDTH in *. eexists _, _.
      split; [apply putchar_inline; [done|unfold VGA_WIDTH; lia]|].
      split; [|reflexivity]. rewrite Z.mod_small; lia. }
  assert (Hw : terminal_write [c] 1 st = Some st') by reflexivity.
  clearbody st'. destruct Hput as (r & k & -> & Hk & Hr).
  split; [apply cell_at_put_same|]. split; [apply cell_char_vga_entry|].
  split; [intros x y Gxy Hne; by apply cell_at_put_other|].
  split; [exact Hk|]. split; [exact Hr|]. split; [reflexivity|].
  split; [reflexivity | exact Hw].
Qed.

Lemma putchar_literal_witness :
  let st := terminal_initialize boot_state in
  cell_at (terminal_putchar "013"%byte st) 0 0 = Some 0x0B0D
  ∧ terminal_column (terminal_putchar "013"%byte st) = 1
  ∧ terminal_row (terminal_putchar "013"%byte st) = 0.
Proof.
  intros st.
  destruct (putchar_literal "013"%byte st) as (Hcell & _ & _ & Hc & Hr & _).
  - discriminate.
  - vm_compute. repeat split; discriminate.
  - split; [exact Hcell|]. split; [exact Hc | exact Hr].
Defined.

(** Carriage return, tab and NUL given to [terminal_write] with an explicit
    length land in three cells as they are; the cursor is behind them. *)
Example control_bytes_written_literally :
  ∃ st', terminal_write ["013"; "009"; "000"]%byte 3
           (terminal_initialize boot_state) = Some st'
         ∧ cell_at st' 0 0 = Some 0x0B0D ∧ cell_at st' 1 0 = Some 0x0B09
         ∧ cell_at st' 2 0 = Some 0x0B00
         ∧ terminal_column st' = 3 ∧ terminal_row st' = 0.
Proof.
  exists (putchars ["013"; "009"; "000"]%byte (terminal_initialize boot_state)).
  split; [apply (terminal_write_all ["013"; "009"; "000"]%byte)|].
  vm_compute. repeat split; reflexivity.
Qed.

(** ** C10: the empty write *)

(** C10: [terminal_write] with length 0, whatever the data, returns the
    state it was given, and so does [terminal_writestring] of the empty
    string: cursor, attribute, buffer and memory are all unchanged. *)
Theorem empty_write_identity :
  (∀ data st, terminal_write data 0 st = Some st)
  ∧ (∀ rest st, terminal_writestring (nul :: rest) st = Some st).
Proof. split; reflexivity. Qed.

(** ** The end-to-end example of the specification *)

(** Initialising, then writing the lines "AB" and "C", leaves "AB" and
    blanks on row 0, "C" and blanks on row 1, and the cursor at column 0 of
    row 2. *)
Example two_lines :
  ∃ st1 st2,
    terminal_writeline ["A"; "B"; "000"]%byte (terminal_initialize boot_state)
    = Some st1
    ∧ terminal_writeline ["C"; "000"]%byte st1 = Some st2
    ∧ cell_at st2 0 0 = Some 0x0B41 ∧ cell_at st2 1 0 = Some 0x0B42
    ∧ cell_at st2 2 0 = Some 0x0B20
    ∧ cell_at st2 0 1 = Some 0x0B43 ∧ cell_at st2 1 1 = Some 0x0B20
    ∧ terminal_column st2 = 0 ∧ terminal_row st2 = 2.
Proof.
  set (st0 := terminal_initialize boot_state).
  exists (terminal_putchar newline (putchars ["A"; "B"]%byte st0)),
    (terminal_putchar newline
       (putchars ["C"]%byte
          (terminal_putchar newline (putchars ["A"; "B"]%byte st0)))).
  split; [reflexivity|]. split; [reflexivity|].
  vm_compute. repeat split; reflexivity.
Qed.

(** * Further properties of the driver *)

(** ** Linear cursor arithmetic *)

Lemma cursor_pos_range (st : machine) :
  cursor_ok st → 0 ≤ cursor_pos st < GRID_CELLS.
Proof.
  unfold cursor_ok, cursor_pos, GRID_CELLS, VGA_WIDTH, VGA_HEIGHT. lia.
Qed.

(** Row and column are quotient and remainder of the linear position. *)
Lemma cursor_pos_split (st : machine) :
  cursor_ok st →
  terminal_row st = cursor_pos st / VGA_WIDTH
  ∧ terminal_column st = cursor_pos st mod VGA_WIDTH.
Proof.
  unfold cursor_ok, cursor_pos, VGA_WIDTH, VGA_HEIGHT. intros [Hr Hc].
  split.
  - apply Z.div_unique with (r := terminal_column st); lia.
  - apply Z.mod_unique with (q := terminal_row st); lia.
Qed.

Lemma cursor_pos_inj (st st' : machine) :
  cursor_ok st → cursor_ok st' → cursor_pos st = cursor_pos st' →
  terminal_row st = terminal_row st' ∧ terminal_column st = terminal_column st'.
Proof.
  intros Hok Hok' E.
  destruct (cursor_pos_split st Hok) as [-> ->].
  destruct (cursor_pos_split st' Hok') as [-> ->]. by rewrite E.
Qed.

(** One ordinary character: a store under the cursor, and the cursor one
    position further, modulo the size of the grid. *)
Lemma putchar_step (c : byte) (st : machine) :
  c ≠ newline → cursor_ok st →
  ∃ r k, terminal_putchar c st = put_at c r k st
         ∧ cursor_ok (put_at c r k st)
         ∧ r * VGA_WIDTH + k = (cursor_pos st + 1) mod GRID_CELLS.
Proof.
  intros Hc [Hrow Hcol]. unfold cursor_pos, GRID_CELLS.
  destruct (next_row_grid _ Hrow) as [Hnext Hnr].
  destruct (decide (terminal_column st = VGA_WIDTH - 1)) as [E|E].
  - exists (next_row (terminal_row st)), 0.
    split; [by apply putchar_eol|]. split.
    { split; cbn; [exact Hnr | unfold VGA_WIDTH; lia]. }
    rewrite Hnext, E. unfold VGA_WIDTH, VGA_HEIGHT in *.
    destruct (decide (terminal_row st = 24)) as [->|Hne]; [reflexivity|].
    rewrite !Z.mod_small by lia. lia.
  - exists (terminal_row st), (terminal_column st + 1).
    unfold VGA_WIDTH, VGA_HEIGHT in *.
    split; [apply putchar_inline; [done | unfold VGA_WIDTH; lia]|]. split.
    { split; cbn; unfold VGA_WIDTH, VGA_HEIGHT; lia. }
    rewrite Z.mod_small by lia. lia.
Qed.

Lemma grid_mod_shift (p j : Z) :
  ((p + 1) mod GRID_CELLS + j) mod GRID_CELLS = (p + (j + 1)) mod GRID_CELLS.
Proof.
  rewrite Z.add_mod_idemp_l by (unfold GRID_CELLS, VGA_WIDTH, VGA_HEIGHT; lia).
  f_equal. lia.
Qed.

(** Fewer steps than the grid has cells never come back to the start. *)
Lemma grid_no_revisit (p j : Z) :
  0 ≤ p < GRID_CELLS → 0 < j < GRID_CELLS → (p + j) mod GRID_CELLS ≠ p.
Proof.
  change GRID_CELLS with 2000. intros Hp Hj E.
  pose proof (Z.div_mod (p + j) 2000 ltac:(lia)) as H. rewrite E in H. lia.
Qed.

Lemma grid_mod_range (p : Z) : 0 ≤ p mod GRID_CELLS < GRID_CELLS.
Proof.
  apply Z.mod_pos_bound. unfold GRID_CELLS, VGA_WIDTH, VGA_HEIGHT. lia.
Qed.

Lemma grid_cells_small : GRID_CELLS < 2 ^ 31.
Proof. unfold GRID_CELLS, VGA_WIDTH, VGA_HEIGHT. lia. Qed.

(** A run of ordinary characters of any length, from any cursor on the
    grid: where the cursor ends, which addresses may change, and, when
    the run is no longer than the grid, what the stored cells hold. *)
Lemma putchars_linear (bs : list byte) (st : machine) :
  newline ∉ bs → cursor_ok st →
  cursor_ok (putchars bs st)
  ∧ cursor_pos (putchars bs st)
    = (cursor_pos st + Z.of_nat (length bs)) mod GRID_CELLS
  ∧ terminal_color (putchars bs st) = terminal_color st
  ∧ terminal_buffer (putchars bs st) = terminal_buffer st
  ∧ (∀ a,
       (∀ j, 0 ≤ j < Z.of_nat (length bs) →
          a ≠ elem_addr (terminal_buffer st)
                ((cursor_pos st + j) mod GRID_CELLS)) →
       mem (putchars bs st) !! a = mem st !! a)
  ∧ (Z.of_nat (length bs) ≤ GRID_CELLS →
     ∀ (k : nat) (c : byte), bs !! k = Some c →
       buffer_cell (putchars bs st)
         ((cursor_pos st + Z.of_nat k) mod GRID_CELLS)
       = Some (vga_entry c (terminal_color st))).
Proof.
  revert st. induction bs as [|c bs IH]; intros st Hnl Hok.
  - pose proof (cursor_pos_range st Hok) as Hp. cbn.
    split; [exact Hok|]. split; [rewrite Z.add_0_r, Z.mod_small; done|].
    do 3 (split; [done|]). intros _ k c Hk. by rewrite lookup_nil in Hk.
  - apply not_elem_of_cons in Hnl as [Hc Hbs]. apply not_eq_sym in Hc.
    pose proof (cursor_pos_range st Hok) as Hp.
    pose proof grid_cells_small as Hsmall.
    destruct (putchar_step c st Hc Hok) as (r & k & Hput & Hok1 & Hpos1).
    cbn [putchars foldl]. fold (putchars bs (terminal_putchar c st)).
    rewrite Hput. set (st1 := put_at c r k st) in *.
    assert (Hp1 : cursor_pos st1 = (cursor_pos st + 1) mod GRID_CELLS)
      by exact Hpos1.
    assert (Hmem1 : mem st1 = <[elem_addr (terminal_buffer st) (cursor_pos st)
                                := vga_entry c (terminal_color st)]> (mem st)).
    { unfold st1, put_at. cbn. fold (cursor_pos st).
      by rewrite size_wrap_small by lia. }
    destruct (IH st1 Hbs Hok1) as (Hokf & Hposf & Hcolf & Hbuff & Hframe & Hcells).
    change (terminal_color st1) with (terminal_color st) in *.
    change (terminal_buffer st1) with (terminal_buffer st) in *.
    rewrite Hp1 in Hposf, Hframe, Hcells.
    assert (Hframe' : ∀ a,
      (∀ j, 0 ≤ j < Z.of_nat (length (c :: bs)) →
         a ≠ elem_addr (terminal_buffer st)
               ((cursor_pos st + j) mod GRID_CELLS)) →
      mem (putchars bs st1) !! a = mem st !! a).
    { intros a Ha. cbn [length] in Ha. rewrite Hframe.
      - rewrite Hmem1. apply lookup_insert_ne. intros <-.
        apply (Ha 0); [lia|]. by rewrite Z.add_0_r, Z.mod_small.
      - intros j Hj. rewrite grid_mod_shift. apply Ha. lia. }
    split; [exact Hokf|]. split.
    { rewrite Hposf, grid_mod_shift. f_equal. cbn [length]. lia. }
    split; [exact Hcolf|]. split; [exact Hbuff|]. split; [exact Hframe'|].
    intros Hlen [|i] c' Hi; cbn [length] in Hlen.
    + cbn in Hi. injection Hi as <-. cbn [Z.of_nat].
      rewrite Z.add_0_r, Z.mod_small by done.
      unfold buffer_cell. rewrite Hbuff, Hframe.
      * rewrite Hmem1. apply lookup_insert_eq.
      * intros j Hj E. apply elem_addr_inj in E; [| lia |].
        -- rewrite grid_mod_shift in E. symmetry in E. revert E.
           apply grid_no_revisit; lia.
        -- pose proof (grid_mod_range ((cursor_pos st + 1) mod GRID_CELLS + j)).
           lia.
    + cbn in Hi. specialize (Hcells ltac:(lia) i c' Hi).
      rewrite grid_mod_shift in Hcells.
      replace (cursor_pos st + Z.of_nat (Datatypes.S i))
        with (cursor_pos st + (Z.of_nat i + 1)) by lia.
      exact Hcells.
Qed.

(** ** [strlen] and [terminal_writestring] *)

Lemma strlen_from_first_nul (data : list byte) (len m : nat) :
  strlen_from data len = Some m →
  ∃ n, m = (len + n)%nat ∧ data !! n = Some nul ∧ nul ∉ take n data.
Proof.
  revert len. induction data as [|c data IH]; intros len H; cbn in H;
    [discriminate H|].
  destruct (Byte.eqb c nul) eqn:E.
  - apply Byte.byte_dec_bl in E. subst c. injection H as <-.
    exists 0%nat. split; [lia|]. split; [reflexivity|]. cbn. apply not_elem_of_nil.
  - apply Byte.eqb_false in E. destruct (IH _ H) as (n & -> & Hn & Hpre).
    exists (Datatypes.S n). split; [lia|]. split; [exact Hn|].
    cbn. apply not_elem_of_cons. split; [congruence | exact Hpre].
Qed.

(** X1: [strlen] returns [n] exactly when the byte at index [n] is NUL and
    no byte before it is; it has no result exactly when the object holds
    no NUL at all. *)
Theorem strlen_first_nul (data : list byte) :
  (∀ n, strlen data = Some n ↔ data !! n = Some nul ∧ nul ∉ take n data)
  ∧ (strlen data = None ↔ nul ∉ data).
Proof.
  split.
  - intros n. split.
    + intros H. apply strlen_from_first_nul in H as (k & -> & Hk & Hpre).
      by split.
    + intros [Hn Hpre]. unfold strlen.
      rewrite <- (take_drop_middle data n nul Hn).
      rewrite strlen_from_cstring by exact Hpre.
      f_equal. rewrite length_take. apply lookup_lt_Some in Hn. lia.
  - split.
    + intros H Hin. destruct (strlen_terminated data 0 Hin) as (n & Hn & _).
      unfold strlen in H. congruence.
    + apply strlen_from_unterminated.
Qed.

Lemma strlen_first_nul_witness :
  strlen ["a"; "b"; "000"; "c"; "000"]%byte = Some 2%nat.
Proof.
  destruct (strlen_first_nul ["a"; "b"; "000"; "c"; "000"]%byte) as [H _].
  apply H. split; [reflexivity|].
  intros Hin. repeat (apply elem_of_cons in Hin as [Hin|Hin]; [discriminate Hin|]).
  by apply elem_of_nil in Hin.
Defined.

(** X2: [terminal_writestring] writes the bytes before the first NUL and
    nothing else: it returns what [terminal_write] returns for those
    bytes, whatever follows the terminator in the object. *)
Theorem writestring_stops_at_nul (s rest rest' : list byte) (st : machine) :
  nul ∉ s →
  terminal_writestring (s ++ nul :: rest) st = terminal_write s (length s) st
  ∧ terminal_writestring (s ++ nul :: rest) st
    = terminal_writestring (s ++ nul :: rest') st
  ∧ is_Some (terminal_writestring (s ++ nul :: rest) st).
Proof.
  intros Hnul. rewrite !terminal_writestring_cstring by exact Hnul.
  split; [reflexivity|]. split; [reflexivity|].
  rewrite terminal_write_all. by eexists.
Qed.

Lemma writestring_stops_at_nul_witness :
  terminal_writestring ["h"; "i"; "000"; "x"]%byte boot_state
  = terminal_writestring ["h"; "i"; "000"]%byte boot_state.
Proof.
  apply (writestring_stops_at_nul ["h"; "i"]%byte ["x"]%byte [] boot_state).
  intros H. repeat (apply elem_of_cons in H as [H|H]; [discriminate H|]).
  by apply elem_of_nil in H.
Defined.

(** ** The cell encoding is injective *)

Lemma byte_val_inj (c c' : byte) : byte_val c = byte_val c' → c = c'.
Proof.
  unfold byte_val. intros H. apply N2Z.inj in H.
  pose proof (Byte.of_to_N c) as E. rewrite H, Byte.of_to_N in E. congruence.
Qed.

Lemma vga_color_val_inj (a b : vga_color) :
  vga_color_val a = vga_color_val b → a = b.
Proof. destruct a, b; cbn; intros H; try reflexivity; discriminate H. Qed.

(** X3: different colour pairs pack to different attributes, and cells of
    different characters or different attribute bytes are different
    words. *)
Theorem encoding_injective :
  (∀ fg bg fg' bg',
     vga_entry_color fg bg = vga_entry_color fg' bg' → fg = fg' ∧ bg = bg')
  ∧ (∀ c a c' a', 0 ≤ a < 256 → 0 ≤ a' < 256 →
       vga_entry c a = vga_entry c' a' → c = c' ∧ a = a').
Proof.
  split.
  - intros fg bg fg' bg' H. rewrite !vga_entry_color_add in H.
    pose proof (vga_color_val_range fg). pose proof (vga_color_val_range bg).
    pose proof (vga_color_val_range fg'). pose proof (vga_color_val_range bg').
    split; apply vga_color_val_inj; lia.
  - intros c a c' a' Ha Ha' H. split.
    + apply byte_val_inj.
      by rewrite <- (cell_char_vga_entry c a), H, cell_char_vga_entry.
    + by rewrite <- (cell_attr_vga_entry c a Ha), H, cell_attr_vga_entry.
Qed.

Lemma encoding_injective_witness :
  vga_entry "A"%byte 7 ≠ vga_entry "B"%byte 7.
Proof.
  intros H. destruct encoding_injective as [_ Hinj].
  destruct (Hinj "A"%byte 7 "B"%byte 7) as [E _]; [lia | lia | exact H |].
  discriminate E.
Defined.

(** ** [terminal_putentryat] *)

(** X4: for a position on the grid and an attribute byte,
    [terminal_putentryat] makes that cell read back as the character and
    the attribute, leaves every other grid cell as it was, and changes
    neither cursor nor colour nor buffer, wherever the cursor is. *)
Theorem putentryat_on_grid (c : byte) (a x y : Z) (st : machine) :
  in_grid x y → 0 ≤ a < 256 →
  let st' := terminal_putentryat c a x y st in
  cell_at st' x y = Some (vga_entry c a)
  ∧ cell_char (vga_entry c a) = byte_val c
  ∧ cell_attr (vga_entry c a) = a
  ∧ (∀ x' y', in_grid x' y' → ¬ (x' = x ∧ y' = y) →
       cell_at st' x' y' = cell_at st x' y')
  ∧ terminal_row st' = terminal_row st
  ∧ terminal_column st' = terminal_column st
  ∧ terminal_color st' = terminal_color st
  ∧ terminal_buffer st' = terminal_buffer st.
Proof.
  intros G Ha st'. unfold st', terminal_putentryat, buffer_store, cell_at. cbn.
  split; [apply lookup_insert_eq|]. split; [apply cell_char_vga_entry|].
  split; [by apply cell_attr_vga_entry|]. split; [|done].
  intros x' y' G' Hne. apply lookup_insert_ne. intros H.
  apply grid_addr_inj in H; [|done..]. apply Hne. destruct H; by split.
Qed.

Lemma putentryat_on_grid_witness :
  cell_at (terminal_putentryat "Q"%byte 0x4F 79 24 boot_state) 79 24
  = Some 0x4F51
  ∧ cell_at (terminal_putentryat "Q"%byte 0x4F 79 24 boot_state) 78 24
    = cell_at boot_state 78 24.
Proof.
  destruct (putentryat_on_grid "Q"%byte 0x4F 79 24 boot_state)
    as (Hc & _ & _ & Hf & _).
  - vm_compute. repeat split; discriminate.
  - lia.
  - split; [exact Hc|]. apply Hf.
    + vm_compute. repeat split; discriminate.
    + intros [E _]. discriminate E.
Defined.

(** X5: [terminal_putentryat] checks no bounds.  A column past the end of
    a row is the same store as that column less the width on the next
    row; and a position whose index is past the grid (and below [2^31])
    stores outside the grid, leaving every grid cell as it was. *)
Theorem putentryat_unchecked (c : byte) (a x y : Z) (st : machine) :
  terminal_putentryat c a (x + VGA_WIDTH) y st
  = terminal_putentryat c a x (y + 1) st
  ∧ (GRID_CELLS ≤ y * VGA_WIDTH + x < 2 ^ 31 →
     ∀ x' y', in_grid x' y' →
       cell_at (terminal_putentryat c a x y st) x' y' = cell_at st x' y').
Proof.
  split.
  - unfold terminal_putentryat. do 2 f_equal. lia.
  - intros Hidx x' y' G'. unfold terminal_putentryat, buffer_store, cell_at. cbn.
    apply lookup_insert_ne. intros H.
    destruct (grid_index x' y' G') as [E' B']. rewrite E' in H.
    change GRID_CELLS with 2000 in Hidx.
    change (VGA_WIDTH * VGA_HEIGHT) with 2000 in B'.
    change (2 ^ 31) with 2147483648 in Hidx.
    rewrite size_wrap_small in H by lia.
    apply elem_addr_inj in H; lia.
Qed.

Lemma putentryat_unchecked_witness :
  cell_at (terminal_putentryat "!"%byte 7 0 25 (terminal_initialize boot_state))
    79 24
  = cell_at (terminal_initialize boot_state) 79 24.
Proof.
  destruct (putentryat_unchecked "!"%byte 7 0 25 (terminal_initialize boot_state))
    as [_ H].
  apply H.
  - vm_compute. split; [discriminate | reflexivity].
  - vm_compute. repeat split; discriminate.
Defined.

(** ** [terminal_setcolor] *)

(** X6: [terminal_setcolor] repaints nothing and moves nothing: memory,
    cursor and buffer are as before.  The next ordinary character is
    stored with the new attribute, and an attribute byte reads back from
    the cell as it was set. *)
Theorem setcolor_applies_to_next_char (a : Z) (c : byte) (st : machine) :
  c ≠ newline →
  mem (terminal_setcolor a st) = mem st
  ∧ terminal_row (terminal_setcolor a st) = terminal_row st
  ∧ terminal_column (terminal_setcolor a st) = terminal_column st
  ∧ terminal_buffer (terminal_setcolor a st) = terminal_buffer st
  ∧ cell_at (terminal_putchar c (terminal_setcolor a st))
      (terminal_column st) (terminal_row st)
    = Some (vga_entry c a)
  ∧ (0 ≤ a < 256 → cell_attr (vga_entry c a) = a).
Proof.
  intros Hc. do 4 (split; [reflexivity|]). split.
  - rewrite putchar_other by exact Hc. unfold cell_at. cbn.
    apply lookup_insert_eq.
  - apply cell_attr_vga_entry.
Qed.

Lemma setcolor_applies_to_next_char_witness :
  cell_at (terminal_putchar "k"%byte
             (terminal_setcolor 0x0E (terminal_initialize boot_state))) 0 0
  = Some 0x0E6B.
Proof.
  destruct (setcolor_applies_to_next_char 0x0E "k"%byte
              (terminal_initialize boot_state)) as (_ & _ & _ & _ & H & _).
  - discriminate.
  - exact H.
Defined.

(** ** [terminal_write] in pieces *)

Lemma putchars_app (bs bs' : list byte) (st : machine) :
  putchars (bs ++ bs') st = putchars bs' (putchars bs st).
Proof. apply foldl_app. Qed.

(** X7: writing [n + m] bytes is writing the first [n] and then, from the
    state that leaves, the [m] bytes that follow them; bytes past the
    first [n + m] are never read. *)
Theorem terminal_write_split (data : list byte) (n m : nat) (st : machine) :
  (n + m ≤ length data)%nat →
  ∃ st1 st2,
    terminal_write data n st = Some st1
    ∧ terminal_write (drop n data) m st1 = Some st2
    ∧ terminal_write data (n + m) st = Some st2
    ∧ terminal_write (take (n + m) data) (n + m) st = Some st2.
Proof.
  intros Hle. exists (putchars (take n data) st).
  exists (putchars (take m (drop n data)) (putchars (take n data) st)).
  split; [apply terminal_write_defined; lia|].
  split; [apply terminal_write_defined; rewrite length_drop; lia|].
  assert (E : putchars (take (n + m) data) st
              = putchars (take m (drop n data)) (putchars (take n data) st))
    by (by rewrite <- putchars_app, take_take_drop).
  split.
  - rewrite terminal_write_defined by exact Hle. by rewrite E.
  - rewrite terminal_write_defined by (rewrite length_take; lia).
    rewrite take_take, Nat.min_id. by rewrite E.
Qed.

Lemma terminal_write_split_witness :
  ∃ st1 st2,
    terminal_write ["a"; "b"; "c"; "d"]%byte 1 boot_state = Some st1
    ∧ terminal_write ["b"; "c"; "d"]%byte 2 st1 = Some st2
    ∧ terminal_write ["a"; "b"; "c"; "d"]%byte 3 boot_state = Some st2.
Proof.
  destruct (terminal_write_split ["a"; "b"; "c"; "d"]%byte 1 2 boot_state)
    as (st1 & st2 & H1 & H2 & H3 & _).
  - cbn. lia.
  - exists st1, st2. split; [exact H1|]. split; [exact H2 | exact H3].
Defined.

(** ** Runs of newlines *)

(** X8: [n] newlines in a row, from a cursor on the grid, leave memory,
    colour and buffer as they were, the column at 0 (when [n] is not 0)
    and the row [n] further down modulo the height: the height's number
    of newlines comes back to the same row. *)
Theorem newlines_advance (n : nat) (st : machine) :
  0 ≤ terminal_row st < VGA_HEIGHT →
  let st' := putchars (replicate n newline) st in
  terminal_write (replicate n newline) n st = Some st'
  ∧ terminal_row st' = (terminal_row st + Z.of_nat n) mod VGA_HEIGHT
  ∧ (n ≠ 0%nat → terminal_column st' = 0)
  ∧ mem st' = mem st
  ∧ terminal_color st' = terminal_color st
  ∧ terminal_buffer st' = terminal_buffer st.
Proof.
  intros Hrow. cbn zeta. split.
  { rewrite <- (terminal_write_all (replicate n newline)).
    by rewrite length_replicate. }
  revert st Hrow. induction n as [|n IH]; intros st Hrow.
  - cbn. rewrite Z.add_0_r, Z.mod_small by done. by repeat split.
  - cbn [replicate putchars foldl].
    fold (putchars (replicate n newline) (terminal_putchar newline st)).
    destruct (next_row_grid _ Hrow) as [Hnext Hnr].
    rewrite putchar_newline.
    set (st1 := Machine (next_row (terminal_row st)) 0 (terminal_color st)
                  (terminal_buffer st) (mem st)).
    destruct (IH st1 Hnr) as (Hr & Hc & Hm & Hcol & Hb).
    cbn in Hr, Hm, Hcol, Hb.
    split.
    { rewrite Hr, Hnext. unfold VGA_HEIGHT.
      rewrite Z.add_mod_idemp_l by lia. f_equal. lia. }
    split; [|done]. intros _. destruct n as [|n]; [reflexivity|by apply Hc].
Qed.

Lemma newlines_advance_witness :
  terminal_row (putchars (replicate 25 newline)
                  (set_row 7 (terminal_initialize boot_state))) = 7.
Proof.
  destruct (newlines_advance 25 (set_row 7 (terminal_initialize boot_state)))
    as (_ & H & _).
  - cbn. unfold VGA_HEIGHT. lia.
  - exact H.
Defined.

(** ** Writes that cross rows and wrap around the grid *)

(** Grid position and index are two views of the same thing. *)
Lemma cell_at_buffer_cell (st : machine) (x y : Z) :
  in_grid x y → cell_at st x y = buffer_cell st (y * VGA_WIDTH + x).
Proof.
  intros G. unfold cell_at, buffer_cell. by destruct (grid_index x y G) as [-> _].
Qed.

Lemma index_in_grid (q : Z) :
  0 ≤ q < GRID_CELLS →
  in_grid (q mod VGA_WIDTH) (q / VGA_WIDTH)
  ∧ q / VGA_WIDTH * VGA_WIDTH + q mod VGA_WIDTH = q.
Proof.
  change GRID_CELLS with 2000. unfold in_grid, VGA_WIDTH, VGA_HEIGHT.
  intros Hq. pose proof (Z.div_mod q 80 ltac:(lia)).
  pose proof (Z.mod_pos_bound q 80 ltac:(lia)). lia.
Qed.

(** X9: a write without newlines, of any length and from any cursor on the
    grid, returns and moves the cursor forward by its length in row-major
    order, modulo the 2000 cells of the grid; colour and buffer are kept
    and the cursor stays on the grid. *)
Theorem terminal_write_cursor (bs : list byte) (st : machine) :
  newline ∉ bs → cursor_ok st →
  ∃ st', terminal_write bs (length bs) st = Some st'
    ∧ cursor_ok st'
    ∧ cursor_pos st' = (cursor_pos st + Z.of_nat (length bs)) mod GRID_CELLS
    ∧ terminal_row st'
      = (cursor_pos st + Z.of_nat (length bs)) mod GRID_CELLS / VGA_WIDTH
    ∧ terminal_column st'
      = (cursor_pos st + Z.of_nat (length bs)) mod GRID_CELLS mod VGA_WIDTH
    ∧ terminal_color st' = terminal_color st
    ∧ terminal_buffer st' = terminal_buffer st.
Proof.
  intros Hnl Hok. exists (putchars bs st). split; [apply terminal_write_all|].
  destruct (putchars_linear bs st Hnl Hok) as (Hokf & Hpos & Hcol & Hbuf & _).
  destruct (cursor_pos_split _ Hokf) as [Hr Hc]. rewrite Hpos in Hr, Hc.
  split; [exact Hokf|]. split; [exact Hpos|]. split; [exact Hr|].
  split; [exact Hc|]. by split.
Qed.

Lemma terminal_write_cursor_witness :
  ∃ st', terminal_write (replicate 2000 "z"%byte) 2000
           (set_row 3 (set_column 9 (terminal_initialize boot_state)))
         = Some st'
         ∧ terminal_row st' = 3 ∧ terminal_column st' = 9.
Proof.
  destruct (terminal_write_cursor (replicate 2000 "z"%byte)
              (set_row 3 (set_column 9 (terminal_initialize boot_state))))
    as (st' & Hw & _ & _ & Hr & Hc & _).
  - intros H. apply elem_of_replicate in H as [H _]. discriminate H.
  - vm_compute. repeat split; discriminate.
  - exists st'. split; [exact Hw|]. split; [exact Hr | exact Hc].
Defined.

(** X10: a write without newlines of at most 2000 bytes, from any cursor on
    the grid, stores byte [k] with the current attribute in the cell [k]
    positions after the cursor in row-major order, wrapping from the last
    cell of the grid to the first; every grid cell that is not among those
    positions is as before, and so is all memory outside the grid. *)
Theorem terminal_write_cells (bs : list byte) (st : machine) :
  newline ∉ bs → cursor_ok st → Z.of_nat (length bs) ≤ GRID_CELLS →
  ∃ st', terminal_write bs (length bs) st = Some st'
    ∧ (∀ (k : nat) (c : byte), bs !! k = Some c →
         let q := (cursor_pos st + Z.of_nat k) mod GRID_CELLS in
         cell_at st' (q mod VGA_WIDTH) (q / VGA_WIDTH)
         = Some (vga_entry c (terminal_color st)))
    ∧ (∀ x y, in_grid x y →
         (∀ j, 0 ≤ j < Z.of_nat (length bs) →
            y * VGA_WIDTH + x ≠ (cursor_pos st + j) mod GRID_CELLS) →
         cell_at st' x y = cell_at st x y)
    ∧ (∀ a, (∀ p, 0 ≤ p < GRID_CELLS → a ≠ elem_addr (terminal_buffer st) p) →
         mem st' !! a = mem st !! a).
Proof.
  intros Hnl Hok Hlen. exists (putchars bs st).
  split; [apply terminal_write_all|].
  destruct (putchars_linear bs st Hnl Hok)
    as (_ & _ & _ & Hbuf & Hframe & Hcells).
  split; [|split].
  - intros k c Hk q.
    destruct (index_in_grid q (grid_mod_range _)) as [G Eq].
    rewrite cell_at_buffer_cell, Eq by exact G. by apply Hcells.
  - intros x y G Hout. unfold cell_at. rewrite Hbuf.
    destruct (grid_index x y G) as [-> B]. apply Hframe.
    intros j Hj E. apply elem_addr_inj in E.
    + by apply (Hout j).
    + pose proof grid_cells_small. fold GRID_CELLS in B. lia.
    + pose proof grid_cells_small.
      pose proof (grid_mod_range (cursor_pos st + j)). lia.
  - intros a Ha. apply Hframe. intros j Hj. apply Ha, grid_mod_range.
Qed.

Lemma terminal_write_cells_witness :
  ∃ st', terminal_write ["a"; "b"]%byte 2
           (set_row 24 (set_column 79 (terminal_initialize boot_state)))
         = Some st'
         ∧ cell_at st' 79 24 = Some 0x0B61 ∧ cell_at st' 0 0 = Some 0x0B62.
Proof.
  destruct (terminal_write_cells ["a"; "b"]%byte
              (set_row 24 (set_column 79 (terminal_initialize boot_state))))
    as (st' & Hw & Hcells & _).
  - intros H. repeat (apply elem_of_cons in H as [H|H]; [discriminate H|]).
    by apply elem_of_nil in H.
  - vm_compute. repeat split; discriminate.
  - vm_compute. discriminate.
  - exists st'. split; [exact Hw|]. split.
    + exact (Hcells 0%nat "a"%byte eq_refl).
    + exact (Hcells 1%nat "b"%byte eq_refl).
Defined.

(** X11: a write of exactly 2000 bytes without newlines, from any cursor
    on the grid, brings the cursor back to where it was and overwrites
    every cell of the grid with one of its bytes under the current
    attribute: nothing of the previous screen is left. *)
Theorem terminal_write_full_screen (bs : list byte) (st : machine) :
  newline ∉ bs → cursor_ok st → Z.of_nat (length bs) = GRID_CELLS →
  ∃ st', terminal_write bs (length bs) st = Some st'
    ∧ terminal_row st' = terminal_row st
    ∧ terminal_column st' = terminal_column st
    ∧ (∀ x y, in_grid x y →
         ∃ (k : nat) (c : byte),
           Z.of_nat k = (y * VGA_WIDTH + x - cursor_pos st) mod GRID_CELLS
           ∧ bs !! k = Some c
           ∧ cell_at st' x y = Some (vga_entry c (terminal_color st))).
Proof.
  intros Hnl Hok Hlen. exists (putchars bs st).
  split; [apply terminal_write_all|].
  destruct (putchars_linear bs st Hnl Hok) as (Hokf & Hpos & _ & _ & _ & Hcells).
  pose proof (cursor_pos_range st Hok) as Hp.
  assert (HN : 0 < GRID_CELLS) by (change GRID_CELLS with 2000; lia).
  assert (Hback : cursor_pos (putchars bs st) = cursor_pos st).
  { rewrite Hpos, Hlen. rewrite <- (Z.mul_1_l GRID_CELLS) at 1.
    rewrite Z.mod_add by lia. by apply Z.mod_small. }
  destruct (cursor_pos_inj _ _ Hokf Hok Hback) as [Hr Hc].
  split; [exact Hr|]. split; [exact Hc|].
  intros x y G. destruct (grid_index x y G) as [_ B]. fold GRID_CELLS in B.
  set (d := (y * VGA_WIDTH + x - cursor_pos st) mod GRID_CELLS).
  pose proof (Z.mod_pos_bound (y * VGA_WIDTH + x - cursor_pos st) GRID_CELLS HN)
    as Hd. fold d in Hd.
  destruct (lookup_lt_is_Some_2 bs (Z.to_nat d)) as [c Hc']; [lia|].
  exists (Z.to_nat d), c. split; [lia|]. split; [exact Hc'|].
  rewrite cell_at_buffer_cell by exact G.
  specialize (Hcells ltac:(lia) _ _ Hc').
  rewrite Z2Nat.id in Hcells by lia. unfold d in Hcells.
  rewrite Z.add_mod_idemp_r in Hcells by lia.
  replace (cursor_pos st + (y * VGA_WIDTH + x - cursor_pos st))
    with (y * VGA_WIDTH + x) in Hcells by lia.
  by rewrite Z.mod_small in Hcells.
Qed.

Lemma terminal_write_full_screen_witness :
  ∃ st', terminal_write (replicate 2000 "#"%byte) 2000
           (set_row 12 (set_column 40 (terminal_initialize boot_state)))
         = Some st'
         ∧ terminal_row st' = 12 ∧ terminal_column st' = 40.
Proof.
  destruct (terminal_write_full_screen (replicate 2000 "#"%byte)
              (set_row 12 (set_column 40 (terminal_initialize boot_state))))
    as (st' & Hw & Hr & Hc & _).
  - intros H. apply elem_of_replicate in H as [H _]. discriminate H.
  - vm_compute. repeat split; discriminate.
  - reflexivity.
  - exists st'. split; [exact Hw|]. split; [exact Hr | exact Hc].
Defined.

(** ** Whole lines *)

(** X12: [terminal_writeline] of a string shorter than the width, without
    newlines, from column 0 of a grid row: returns; the cursor is at
    column 0 of the next row (modulo the height); the row holds the
    string from column 0 under the current attribute; every other grid
    cell, on this row or any other, is as before. *)
Theorem writeline_short_line (s rest : list byte) (st : machine) :
  nul ∉ s → newline ∉ s → Z.of_nat (length s) < VGA_WIDTH →
  cursor_ok st → terminal_column st = 0 →
  ∃ st', terminal_writeline (s ++ nul :: rest) st = Some st'
    ∧ terminal_column st' = 0
    ∧ terminal_row st' = (terminal_row st + 1) mod VGA_HEIGHT
    ∧ (∀ (k : nat) (c : byte), s !! k = Some c →
         cell_at st' (Z.of_nat k) (terminal_row st)
         = Some (vga_entry c (terminal_color st)))
    ∧ (∀ x y, in_grid x y →
         ¬ (y = terminal_row st ∧ x < Z.of_nat (length s)) →
         cell_at st' x y = cell_at st x y).
Proof.
  intros Hnul Hnl Hlen [Hrow _] Hcol.
  exists (terminal_putchar newline (putchars s st)). split.
  { unfold terminal_writeline.
    rewrite terminal_writestring_cstring by exact Hnul.
    by rewrite terminal_write_all. }
  destruct (putchars_within_row s st) as (Hr & _ & _ & Hb & Hcells & Hframe);
    [done | done | lia | lia |].
  rewrite putchar_newline. rewrite Hcol in Hcells, Hframe.
  split; [reflexivity|]. split.
  { cbn. rewrite Hr. by apply next_row_grid. }
  split.
  - intros k c Hk. specialize (Hcells k c Hk). by rewrite Z.add_0_l in Hcells.
  - intros x y G Hout. specialize (Hframe x y G).
    unfold cell_at in *. cbn. apply Hframe.
    intros [-> Hx]. apply Hout. split; [reflexivity | lia].
Qed.

Lemma writeline_short_line_witness :
  ∃ st', terminal_writeline ["o"; "k"; "000"]%byte (terminal_initialize boot_state)
         = Some st'
         ∧ terminal_column st' = 0 ∧ terminal_row st' = 1.
Proof.
  destruct (writeline_short_line ["o"; "k"]%byte []
              (terminal_initialize boot_state))
    as (st' & Hw & Hc & Hr & _).
  - intros H. repeat (apply elem_of_cons in H as [H|H]; [discriminate H|]).
    by apply elem_of_nil in H.
  - intros H. repeat (apply elem_of_cons in H as [H|H]; [discriminate H|]).
    by apply elem_of_nil in H.
  - reflexivity.
  - vm_compute. repeat split; discriminate.
  - reflexivity.
  - exists st'. split; [exact Hw|]. split; [exact Hc | exact Hr].
Defined.

(** X13: [terminal_writeline] of a string exactly as long as the width,
    without newlines, from column 0 of a grid row, moves the cursor down
    by two rows (modulo the height), to column 0: the last character
    already wraps to the next row and the newline leaves that row
    empty. *)
Theorem writeline_full_width_skips_row (s rest : list byte) (st : machine) :
  nul ∉ s → newline ∉ s → Z.of_nat (length s) = VGA_WIDTH →
  cursor_ok st → terminal_column st = 0 →
  ∃ st', terminal_writeline (s ++ nul :: rest) st = Some st'
    ∧ terminal_column st' = 0
    ∧ terminal_row st' = (terminal_row st + 2) mod VGA_HEIGHT.
Proof.
  intros Hnul Hnl Hlen [Hrow _] Hcol.
  exists (terminal_putchar newline (putchars s st)). split.
  { unfold terminal_writeline.
    rewrite terminal_writestring_cstring by exact Hnul.
    by rewrite terminal_write_all. }
  destruct (putchars_fill_row s st) as [Hr Hc]; [done | | done | lia | lia |].
  { intros ->. cbn in Hlen. unfold VGA_WIDTH in Hlen. lia. }
  rewrite putchar_newline. split; [reflexivity|]. cbn. rewrite Hr.
  destruct (next_row_grid _ Hrow) as [E1 B1].
  destruct (next_row_grid _ B1) as [E2 _]. rewrite E2, E1.
  unfold VGA_HEIGHT. rewrite Z.add_mod_idemp_l by lia. f_equal. lia.
Qed.

Lemma writeline_full_width_skips_row_witness :
  ∃ st', terminal_writeline (replicate 80 "="%byte ++ [nul])
           (terminal_initialize boot_state) = Some st'
         ∧ terminal_column st' = 0 ∧ terminal_row st' = 2.
Proof.
  apply (writeline_full_width_skips_row (replicate 80 "="%byte) []
           (terminal_initialize boot_state)).
  - intros H. apply elem_of_replicate in H as [H _]. discriminate H.
  - intros H. apply elem_of_replicate in H as [H _]. discriminate H.
  - reflexivity.
  - vm_compute. repeat split; discriminate.
  - reflexivity.
Defined.

(** ** The driver never reads the screen *)

Lemma for_upto_commute {A : Type} (f : A → A) (n : Z) (body : Z → A → A) (a : A) :
  (∀ i x, body i (f x) = f (body i x)) →
  for_upto n body (f a) = f (for_upto n body a).
Proof.
  intros Hbody. unfold for_upto. generalize (seqZ 0 n). intros l. revert a.
  induction l as [|i l IH]; intros a; [reflexivity|].
  cbn [foldl]. by rewrite Hbody, IH.
Qed.

Lemma buffer_store_overlay (index v : Z) (m : gmap Z Z) (st : machine) :
  buffer_store index v (overlay m st) = overlay m (buffer_store index v st).
Proof.
  unfold buffer_store, overlay, set_mem. cbn. by rewrite insert_union_l.
Qed.

Lemma putchar_overlay (c : byte) (m : gmap Z Z) (st : machine) :
  terminal_putchar c (overlay m st) = overlay m (terminal_putchar c st).
Proof.
  destruct (decide (c = newline)) as [->|Hc].
  - by rewrite !putchar_newline.
  - rewrite !putchar_other by exact Hc. unfold overlay, set_mem. cbn.
    by rewrite insert_union_l.
Qed.

Lemma putchars_overlay (bs : list byte) (m : gmap Z Z) (st : machine) :
  putchars bs (overlay m st) = overlay m (putchars bs st).
Proof.
  revert st. induction bs as [|c bs IH]; intros st; [reflexivity|].
  cbn [putchars foldl]. rewrite putchar_overlay. apply IH.
Qed.

Lemma terminal_write_from_overlay (data : list byte) (n i : nat)
    (m : gmap Z Z) (st : machine) :
  terminal_write_from data i n (overlay m st)
  = overlay m <$> terminal_write_from data i n st.
Proof.
  revert i st. induction n as [|n IH]; intros i st; [reflexivity|].
  cbn [terminal_write_from]. destruct (data !! i) as [c|]; [|reflexivity].
  rewrite putchar_overlay. apply IH.
Qed.

Lemma initialize_overlay (m : gmap Z Z) (st : machine) :
  terminal_initialize (overlay m st) = overlay m (terminal_initialize st).
Proof.
  unfold terminal_initialize. cbn zeta.
  change (set_buffer VGA_MEMORY (set_color ?a (set_column 0 (set_row 0
            (overlay m st)))))
    with (overlay m (set_buffer VGA_MEMORY (set_color a (set_column 0
            (set_row 0 st))))).
  apply for_upto_commute. intros y s.
  apply for_upto_commute. intros x s'. apply buffer_store_overlay.
Qed.

Lemma exec_op_overlay (o : op) (m : gmap Z Z) (st : machine) :
  exec_op o (overlay m st) = overlay m <$> exec_op o st.
Proof.
  destruct o as [|color|c|data size|data|data]; cbn [exec_op].
  - by rewrite initialize_overlay.
  - reflexivity.
  - by rewrite putchar_overlay.
  - apply terminal_write_from_overlay.
  - unfold terminal_writestring. destruct (strlen data); [|reflexivity].
    apply terminal_write_from_overlay.
  - unfold terminal_writeline, terminal_writestring.
    destruct (strlen data) as [len|]; [|reflexivity].
    unfold terminal_write. rewrite terminal_write_from_overlay.
    destruct (terminal_write_from data 0 len st) as [s|]; [|reflexivity].
    change (Some (terminal_putchar newline (overlay m s))
            = Some (overlay m (terminal_putchar newline s))).
    by rewrite putchar_overlay.
Qed.

Lemma exec_ops_overlay (os : list op) (m : gmap Z Z) (st : machine) :
  exec_ops os (overlay m st) = overlay m <$> exec_ops os st.
Proof.
  revert st. induction os as [|o os IH]; intros st; [reflexivity|].
  cbn [exec_ops]. rewrite exec_op_overlay.
  destruct (exec_op o st) as [st'|]; [|reflexivity]. cbn. apply IH.
Qed.


(** ** The driver stays inside the VGA text memory *)

Lemma vga_elem_addr (p : Z) :
  0 ≤ p < GRID_CELLS → elem_addr VGA_MEMORY p = VGA_MEMORY + 2 * p.
Proof.
  change GRID_CELLS with 2000. unfold VGA_MEMORY. intros Hp.
  unfold elem_addr. apply size_wrap_small. lia.
Qed.

Lemma putchar_buffer (c : byte) (st : machine) :
  terminal_buffer (terminal_putchar c st) = terminal_buffer st.
Proof.
  destruct (decide (c = newline)) as [->|Hc].
  - by rewrite putchar_newline.
  - by rewrite putchar_other.
Qed.

Lemma putchar_ready (c : byte) (st : machine) :
  driver_ready st →
  driver_ready (terminal_putchar c st)
  ∧ (∀ a, ¬ in_vga_buffer a → mem (terminal_putchar c st) !! a = mem st !! a).
Proof.
  intros [Hok Hbuf]. split.
  - split; [by apply putchar_cursor_ok | by rewrite putchar_buffer].
  - intros a Ha. destruct (decide (c = newline)) as [->|Hc].
    + by rewrite putchar_newline.
    + rewrite putchar_other by exact Hc. cbn. apply lookup_insert_ne.
      intros <-. apply Ha. pose proof (cursor_pos_range st Hok) as Hp.
      exists (cursor_pos st). split; [exact Hp|].
      fold (cursor_pos st). rewrite Hbuf, size_wrap_small.
      * by apply vga_elem_addr.
      * pose proof grid_cells_small. change (2 ^ 31) with 2147483648 in *. lia.
Qed.

Lemma putchars_ready (bs : list byte) (st : machine) :
  driver_ready st →
  driver_ready (putchars bs st)
  ∧ (∀ a, ¬ in_vga_buffer a → mem (putchars bs st) !! a = mem st !! a).
Proof.
  revert st. induction bs as [|c bs IH]; intros st Hready; [by split|].
  cbn [putchars foldl]. fold (putchars bs (terminal_putchar c st)).
  destruct (putchar_ready c st Hready) as [Hready1 Hframe1].
  destruct (IH _ Hready1) as [Hreadyf Hframef].
  split; [exact Hreadyf|]. intros a Ha. by rewrite Hframef, Hframe1.
Qed.

Lemma initialize_frame (st : machine) (a : Z) :
  ¬ in_vga_buffer a → mem (terminal_initialize st) !! a = mem st !! a.
Proof.
  intros Ha. unfold terminal_initialize. cbn zeta.
  set (J := λ s : machine, terminal_buffer s = VGA_MEMORY
                            ∧ mem s !! a = mem st !! a).
  assert (H : J (for_upto VGA_HEIGHT (λ y s,
                   for_upto VGA_WIDTH (λ x s,
                     let index := size_wrap (y * VGA_WIDTH + x) in
                     buffer_store index (vga_entry space (terminal_color s)) s) s)
                   (set_buffer VGA_MEMORY
                      (set_color (vga_entry_color VGA_LIGHT_CYAN VGA_BLACK)
                         (set_column 0 (set_row 0 st)))))).
  { apply (for_upto_invariant (λ _, J)); [unfold VGA_HEIGHT; lia | by split |].
    intros y s Hy Hs.
    apply (for_upto_invariant (λ _, J)); [unfold VGA_WIDTH; lia | exact Hs |].
    intros x s' Hx [Hb Hm]. split; [exact Hb|]. cbn.
    rewrite lookup_insert_ne; [exact Hm|]. intros <-. apply Ha.
    assert (G : in_grid x y) by (by split).
    destruct (grid_index x y G) as [-> B]. fold GRID_CELLS in B.
    exists (y * VGA_WIDTH + x). split; [exact B|].
    rewrite Hb. by apply vga_elem_addr. }
  apply H.
Qed.

Lemma initialize_ready (st : machine) : driver_ready (terminal_initialize st).
Proof.
  destruct (initialize_spec st) as [(Hr & Hc & _ & Hb) _].
  split; [|exact Hb].
  unfold cursor_ok, VGA_HEIGHT, VGA_WIDTH. rewrite Hr, Hc. lia.
Qed.

(** What an operation on well-formed arguments comes to: an
    initialisation, a change of colour, or a run of [terminal_putchar]. *)
Lemma exec_op_shape (o : op) (st : machine) :
  op_defined o →
  exec_op o st = Some (terminal_initialize st)
  ∨ (∃ a, exec_op o st = Some (terminal_setcolor a st))
  ∨ (∃ bs, exec_op o st = Some (putchars bs st)).
Proof.
  intros Hdef. destruct o as [|color|c|data size|data|data]; cbn in *.
  - by left.
  - right. left. by exists color.
  - right. right. by exists [c].
  - right. right. exists (take size data). by apply terminal_write_defined.
  - right. right. unfold terminal_writestring, strlen.
    destruct (strlen_terminated data 0 Hdef) as (n & -> & Hlt). cbn [Nat.add].
    exists (take n data). apply terminal_write_defined. lia.
  - right. right. unfold terminal_writeline, terminal_writestring, strlen.
    destruct (strlen_terminated data 0 Hdef) as (n & -> & Hlt). cbn [Nat.add].
    rewrite terminal_write_defined by lia.
    exists (take n data ++ [newline]). by rewrite putchars_app.
Qed.

Lemma exec_op_ready (o : op) (st : machine) :
  driver_ready st → op_defined o →
  ∃ st', exec_op o st = Some st' ∧ driver_ready st'
         ∧ (∀ a, ¬ in_vga_buffer a → mem st' !! a = mem st !! a).
Proof.
  intros Hready Hdef.
  destruct (exec_op_shape o st Hdef) as [->|[[a ->]|[bs ->]]]; eexists;
    (split; [reflexivity|]).
  - split; [apply initialize_ready|]. intros a. apply initialize_frame.
  - by split.
  - by apply putchars_ready.
Qed.

Lemma exec_ops_ready (os : list op) (st : machine) :
  driver_ready st → Forall op_defined os →
  ∃ st', exec_ops os st = Some st' ∧ driver_ready st'
         ∧ (∀ a, ¬ in_vga_buffer a → mem st' !! a = mem st !! a).
Proof.
  intros Hready Hdef. revert st Hready.
  induction Hdef as [|o os Ho _ IH]; intros st Hready.
  - exists st. by split.
  - cbn [exec_ops].
    destruct (exec_op_ready o st Hready Ho) as (s & -> & Hs & Hframe).
    destruct (IH s Hs) as (st' & Hex & Hready' & Hframe').
    exists st'. split; [exact Hex|]. split; [exact Hready'|].
    intros a Ha. by rewrite Hframe', Hframe.
Qed.

(** X15: after [terminal_initialize], every sequence of operations on
    well-formed arguments returns, keeps the buffer pointer at the VGA
    text memory, and stores only into the 2000 words of the grid: every
    other address of memory reads as it did before the initialisation. *)
Theorem driver_stays_in_vga_buffer (os : list op) (st : machine) :
  Forall op_defined os →
  ∃ st', exec_ops os (terminal_initialize st) = Some st'
    ∧ terminal_buffer st' = VGA_MEMORY
    ∧ (∀ a, ¬ in_vga_buffer a → mem st' !! a = mem st !! a).
Proof.
  intros Hdef.
  destruct (exec_ops_ready os _ (initialize_ready st) Hdef)
    as (st' & Hex & [_ Hb] & Hframe).
  exists st'. split; [exact Hex|]. split; [exact Hb|].
  intros a Ha. rewrite Hframe by exact Ha. by apply initialize_frame.
Qed.

Lemma driver_stays_in_vga_buffer_witness :
  ∃ st', exec_ops [OpWrite (replicate 3000 "w"%byte) 3000; OpPutchar newline]
           (terminal_initialize boot_state) = Some st'
    ∧ terminal_buffer st' = VGA_MEMORY
    ∧ (∀ a, ¬ in_vga_buffer a → mem st' !! a = mem boot_state !! a).
Proof.
  apply driver_stays_in_vga_buffer. repeat constructor.
Defined.

(** ** Initialisation is a reset *)

Lemma machine_eq (s t : machine) :
  terminal_row s = terminal_row t → terminal_column s = terminal_column t →
  terminal_color s = terminal_color t → terminal_buffer s = terminal_buffer t →
  mem s = mem t → s = t.
Proof. destruct s, t. cbn. by intros -> -> -> -> ->. Qed.

Lemma in_vga_buffer_dec (a : Z) : in_vga_buffer a ∨ ¬ in_vga_buffer a.
Proof.
  destruct (decide (0 ≤ (a - VGA_MEMORY) / 2 < GRID_CELLS
                    ∧ a = VGA_MEMORY + 2 * ((a - VGA_MEMORY) / 2))) as [H|H].
  - left. by exists ((a - VGA_MEMORY) / 2).
  - right. intros (p & Hp & ->). apply H.
    replace (VGA_MEMORY + 2 * p - VGA_MEMORY) with (p * 2) by lia.
    rewrite Z.div_mul by lia. by split.
Qed.

Lemma initialize_agree (st1 st2 : machine) :
  (∀ a, ¬ in_vga_buffer a → mem st1 !! a = mem st2 !! a) →
  terminal_initialize st1 = terminal_initialize st2.
Proof.
  intros Hout.
  destruct (initialize_spec st1) as [(Hr1 & Hc1 & Hcol1 & Hb1) Hblank1].
  destruct (initialize_spec st2) as [(Hr2 & Hc2 & Hcol2 & Hb2) Hblank2].
  apply machine_eq; try congruence.
  apply map_eq. intros a. destruct (in_vga_buffer_dec a) as [(p & Hp & ->)|Ha].
  - specialize (Hblank1 p Hp). specialize (Hblank2 p Hp).
    rewrite Hb1, vga_elem_addr in Hblank1 by exact Hp.
    rewrite Hb2, vga_elem_addr in Hblank2 by exact Hp.
    rewrite Hblank1, Hblank2. by rewrite Hcol1, Hcol2.
  - rewrite !initialize_frame by exact Ha. by apply Hout.
Qed.

(** X16: what [terminal_initialize] returns depends on the state it is
    given only through the memory outside the grid.  So it is idempotent,
    and initialising again after any sequence of operations gives back
    exactly the state of the first initialisation. *)
Theorem initialize_is_reset :
  (∀ st1 st2, (∀ a, ¬ in_vga_buffer a → mem st1 !! a = mem st2 !! a) →
     terminal_initialize st1 = terminal_initialize st2)
  ∧ (∀ st, terminal_initialize (terminal_initialize st) = terminal_initialize st)
  ∧ (∀ os st, Forall op_defined os →
       ∃ st', exec_ops os (terminal_initialize st) = Some st'
              ∧ terminal_initialize st' = terminal_initialize st).
Proof.
  split; [exact initialize_agree|]. split.
  - intros st. apply initialize_agree. intros a. apply initialize_frame.
  - intros os st Hdef.
    destruct (exec_ops_ready os _ (initialize_ready st) Hdef)
      as (st' & Hex & _ & Hframe).
    exists st'. split; [exact Hex|]. apply initialize_agree.
    intros a Ha. rewrite Hframe by exact Ha. by apply initialize_frame.
Qed.

Lemma initialize_is_reset_witness :
  ∃ st', exec_ops [OpSetcolor 0x4F; OpWriteline ["h"; "i"; "000"]%byte]
           (terminal_initialize boot_state) = Some st'
         ∧ terminal_initialize st' = terminal_initialize boot_state.
Proof.
  destruct initialize_is_reset as (_ & _ & H). apply H. repeat constructor.
Defined.

(** ** The boot sequence *)

Lemma kernel_main_ops (st : machine) : kernel_main st = exec_ops kernel_ops st.
Proof. reflexivity. Qed.

Lemma cstr_terminated (s : String.string) : nul ∈ cstr s.
Proof. unfold cstr. apply elem_of_app. right. apply list_elem_of_here. Qed.

Lemma kernel_ops_defined : Forall op_defined kernel_ops.
Proof.
  unfold kernel_ops.
  repeat (apply Forall_cons; split; [first [exact I | apply cstr_terminated]|]).
  apply Forall_nil_2.
Qed.

(** On the statics as the loader leaves them and an empty memory, the boot
    sequence ends in a state that shows the banner: by running it. *)
Lemma kernel_main_boot_state :
  ∃ r, kernel_main boot_state = Some r ∧ shows_banner r = true.
Proof.
  assert (H : match kernel_main boot_state with
              | Some r => shows_banner r
              | None => false
              end = true) by (vm_compute; reflexivity).
  destruct (kernel_main boot_state) as [r|]; [|discriminate H].
  exists r. by split.
Qed.

Lemma shows_banner_spec (r : machine) :
  shows_banner r = true →
  terminal_row r = 16 ∧ terminal_column r = 0
  ∧ terminal_color r = vga_entry_color VGA_YELLOW VGA_BLACK
  ∧ (∀ p, 0 ≤ p < GRID_CELLS →
       buffer_cell r p = Some (banner_cell (p mod VGA_WIDTH) (p / VGA_WIDTH))).
Proof.
  unfold shows_banner. rewrite !andb_true_iff.
  intros [[[Hr Hc] Hcol] Hcells].
  apply Z.eqb_eq in Hr, Hc, Hcol. do 3 (split; [done|]).
  intros p Hp. rewrite forallb_forall in Hcells.
  specialize (Hcells p). rewrite <- list_elem_of_In, elem_of_seqZ in Hcells.
  specialize (Hcells ltac:(lia)).
  destruct (buffer_cell r p) as [w|]; [|discriminate Hcells].
  apply Z.eqb_eq in Hcells. by rewrite Hcells.
Qed.

Lemma exec_ops_cons (o : op) (os : list op) (st : machine) :
  exec_ops (o :: os) st
  = match exec_op o st with Some st' => exec_ops os st' | None => None end.
Proof. reflexivity. Qed.

Lemma exec_ops_initialize (os : list op) (st : machine) :
  exec_ops (OpInitialize :: os) st = exec_ops os (terminal_initialize st).
Proof. by rewrite exec_ops_cons. Qed.

(** From any state, the boot sequence is the one from [boot_state] over
    the memory of that state. *)
Lemma kernel_main_any (st : machine) :
  kernel_main st = overlay (mem st) <$> kernel_main boot_state.
Proof.
  rewrite (kernel_main_ops st), (kernel_main_ops boot_state).
  rewrite <- exec_ops_overlay. unfold kernel_ops.
  rewrite !exec_ops_initialize.
  rewrite (initialize_agree st (overlay (mem st) boot_state)); [reflexivity|].
  intros a _. unfold overlay. cbn. by rewrite (left_id_L ∅ (∪)).
Qed.

(** X17: from any state of the variables and of memory, [kernel_main]
    reaches its halt loop; there the cursor is at column 0 of row 16, the
    colour is yellow on black, the buffer is the VGA text memory, every
    cell of the grid is the cell of the banner (rows 0 to 15 hold its
    sixteen lines, each in its colour, the rest is blank), and memory
    outside the grid is as it was. *)
Theorem kernel_main_shows_banner (st : machine) :
  ∃ st', kernel_main st = Some st'
    ∧ terminal_row st' = 16 ∧ terminal_column st' = 0
    ∧ terminal_color st' = vga_entry_color VGA_YELLOW VGA_BLACK
    ∧ terminal_buffer st' = VGA_MEMORY
    ∧ (∀ x y, in_grid x y → cell_at st' x y = Some (banner_cell x y))
    ∧ (∀ a, ¬ in_vga_buffer a → mem st' !! a = mem st !! a).
Proof.
  destruct kernel_main_boot_state as (r & Hr & Hshow).
  apply shows_banner_spec in Hshow as (Hrow & Hcol & Hcolour & Hcells).
  destruct (exec_ops_ready (tail kernel_ops) _ (initialize_ready st))
    as (st' & Hex & [_ Hbuf] & Hframe).
  { pose proof kernel_ops_defined as H. by apply Forall_cons in H as [_ H]. }
  assert (Hmain : kernel_main st = Some st').
  { rewrite kernel_main_ops. unfold kernel_ops in *.
    rewrite exec_ops_initialize. exact Hex. }
  exists st'. split; [exact Hmain|].
  rewrite kernel_main_any, Hr in Hmain. injection Hmain as <-.
  do 3 (split; [done|]). split; [exact Hbuf|]. split.
  - intros x y G. destruct (grid_index x y G) as [E B]. fold GRID_CELLS in B.
    rewrite cell_at_buffer_cell by exact G.
    specialize (Hcells _ B).
    assert (Ex : (y * VGA_WIDTH + x) mod VGA_WIDTH = x).
    { destruct G as [Gx _]. unfold VGA_WIDTH in *.
      symmetry. apply Z.mod_unique with (q := y); lia. }
    assert (Ey : (y * VGA_WIDTH + x) / VGA_WIDTH = y).
    { destruct G as [Gx _]. unfold VGA_WIDTH in *.
      symmetry. apply Z.div_unique with (r := x); lia. }
    rewrite Ex, Ey in Hcells. unfold buffer_cell in *. cbn.
    by apply lookup_union_Some_l.
  - intros a Ha. rewrite Hframe by exact Ha. by apply initialize_frame.
Qed.

Lemma kernel_main_shows_banner_witness :
  ∃ st', kernel_main boot_state = Some st'
         ∧ cell_at st' 27 1 = Some 0x0B53 ∧ cell_at st' 79 0 = Some 0x0B20.
Proof.
  destruct (kernel_main_shows_banner boot_state)
    as (st' & Hmain & _ & _ & _ & _ & Hcells & _).
  exists st'. split; [exact Hmain|]. split.
  - rewrite (Hcells 27 1) by (vm_compute; repeat split; discriminate).
    reflexivity.
  - rewrite (Hcells 79 0) by (vm_compute; repeat split; discriminate).
    reflexivity.
Defined.
